(** * starlite-msgspec: the msgspec -> pydantic type-graph translator

    A shallow embedding of [src/plugin.py] (class [MsgspecPlugin]) and the
    properties of its specification.

    Python objects are modelled as follows.
    - A type expression found in a struct field ([field.type]) is a value of
      [pytype]: an ordinary class, [NoneType], a class deriving from
      [msgspec.Struct], a parametrised generic such as [list[int]] (it has
      [__origin__] and [__args__]), an unparametrised alias such as
      [typing.List] (it has [__origin__] and no [__args__]), a
      [types.UnionType] instance such as [int | None] (it has [__args__]
      only), or any other object.
    - A struct class object is a [StructClass]: its identity and its
      [__name__]. Two distinct classes may share a name.
    - The functions the plugin imports from other packages are parameters:
      [msgspec.structs.fields] is [fields : StructClass -> list MFieldInfo.t],
      and [typing.Union[...]] and [pydantic.create_model] are the two
      components of a [Collaborators] record. Each of the latter two returns
      a value or raises, as it pleases; nothing is assumed about them except
      where a statement says so.
    - The plugin instance [self] is a [Plugin]: the dict
      [_struct_namespace_map] from names to class objects, and the store of the
      pydantic classes created so far. A class object is referred to by its
      address in the store, so that identity of classes is equality of
      addresses.
    - A class that [create_model] returns has the name and the configuration
      it was given and the fields pydantic made of the field definitions.
      [update_forward_refs] walks the field types of one class from left to
      right and replaces each string reference by the class bound to its name
      in the namespace it is given; at the first name that is not bound it
      stops, leaves the rest as it is and raises [NameError]. The namespace
      is the cache alone: the globals of pydantic's own module and the
      builtins, in which Python would look up a name next, are left out, so
      a struct class named as one of those is outside the model.
    - A subscription [list[*type_args]], [set[*type_args]] or
      [dict[*type_args]] is the node [PApp c type_args]. *)

From stdpp Require Import gmap strings list fin_maps.

Set Warnings "-register-all,-clear-no-such-hyp".
Open Scope string_scope.
Open Scope list_scope.

(** ** Values and type expressions *)

(** Values that occur as defaults and as non-type arguments. [NODEFAULT] is
    msgspec's sentinel; it is a value of its own, distinct from [None] and
    from every number. *)
Inductive pyvalue :=
| NODEFAULT
| PyNone
| PyBool (b : bool)
| PyInt (z : Z)
| PyStr (s : string)
| PyEllipsis
| PyCallable (qualname : string).

Global Instance pyvalue_eq_dec : EqDecision pyvalue.
Proof. solve_decision. Defined.

(** Objects that are compared with [list], [set], [dict] and [UnionType]:
    the [__origin__] of a generic alias and the [__class__] of an object.
    [other_class] stands for every class that is none of the four. *)
Inductive pyclass :=
| builtin_dict
| builtin_list
| builtin_set
| UnionType
| other_class (qualname : string).

Global Instance pyclass_eq_dec : EqDecision pyclass.
Proof. solve_decision. Defined.

(** A class that derives from [msgspec.Struct]. *)
Record StructClass := { class_id : nat; __name__ : string }.

Global Instance StructClass_eq_dec : EqDecision StructClass.
Proof. solve_decision. Defined.

Inductive pytype :=
| TClass (qualname : string)
| TNoneType
| TStruct (cls : StructClass)
| TGeneric (origin : pyclass) (args : list pytype)
| TUnionType (args : list pytype)
| TValue (v : pyvalue)
| TAlias (origin : pyclass).

(** [hasattr(type_, "__origin__")] and [type_.__origin__]. *)
Definition __origin__ (type_ : pytype) : option pyclass :=
  match type_ with
  | TGeneric origin _ | TAlias origin => Some origin
  | _ => None
  end.

(** [type_.__class__]. *)
Definition __class__ (type_ : pytype) : pyclass :=
  match type_ with
  | TClass _ | TNoneType => other_class "type"
  | TStruct _ => other_class "msgspec.StructMeta"
  | TGeneric _ _ => other_class "types.GenericAlias"
  | TAlias _ => other_class "typing._SpecialGenericAlias"
  | TUnionType _ => UnionType
  | TValue NODEFAULT => other_class "msgspec.NoDefault"
  | TValue PyNone => other_class "NoneType"
  | TValue (PyBool _) => other_class "bool"
  | TValue (PyInt _) => other_class "int"
  | TValue (PyStr _) => other_class "str"
  | TValue PyEllipsis => other_class "ellipsis"
  | TValue (PyCallable _) => other_class "function"
  end.

(** [type_.__args__], absent on objects that are not parametrised. *)
Definition __args__ (type_ : pytype) : option (list pytype) :=
  match type_ with
  | TGeneric _ args | TUnionType args => Some args
  | _ => None
  end.

(** [inspect.isclass]. *)
Definition isclass (value : pytype) : bool :=
  match value with
  | TClass _ | TNoneType | TStruct _ => true
  | _ => false
  end.

(** ** Exceptions *)

Inductive exn :=
| TypeError
| KeyError
| AttributeError
| NameError
| OtherError (qualname : string).

Inductive result (A : Type) :=
| Ok (a : A)
| Raise (e : exn).
Arguments Ok {A} a.
Arguments Raise {A} e.

(** [issubclass(value, Struct)]: a [TypeError] when [value] is not a
    class. *)
Definition issubclass_Struct (value : pytype) : result bool :=
  match value with
  | TStruct _ => Ok true
  | TClass _ | TNoneType => Ok false
  | _ => Raise TypeError
  end.

(** [isclass(t) and issubclass(t, Struct)], the test of both scanning
    loops; the struct class is returned when the test holds. *)
Definition as_struct (t : pytype) : option StructClass :=
  if isclass t then
    match issubclass_Struct t, t with
    | Ok true, TStruct cls => Some cls
    | _, _ => None
    end
  else None.

(** ** The target side *)

(** [TYPE_CONSTRUCTOR_MAP]'s values. *)
Inductive constructor := C_dict | C_list | C_set | C_Union.

(** The address of a class object in the store. *)
Abbreviation loc := nat (only parsing).

(** Type expressions handed to pydantic. *)
Inductive ptype :=
| PRef (name : string)
| PNone
| PApp (c : constructor) (type_args : list ptype)
| PKeep (t : pytype)
| PModel (l : loc).

(** msgspec's field descriptor. [encode_name] is [None] when the descriptor
    has no such attribute. *)
Module MFieldInfo.
Record t := mk {
  name : string;
  type : pytype;
  default : pyvalue;
  default_factory : pyvalue;
  encode_name : option string
}.
End MFieldInfo.

(** pydantic's [FieldInfo], built from the keyword arguments
    [field_info_kwargs]. *)
Record PFieldInfo := { field_info_kwargs : gmap string pyvalue }.

Record Config := {
  orm_mode : bool;
  arbitrary_types_allowed : bool;
  use_enum_values : bool;
  allow_population_by_field_name : bool
}.

(** A generated pydantic class, with its fields in their order. *)
Record Model := {
  model_name : string;
  model_config : Config;
  model_fields : list (string * (ptype * PFieldInfo))
}.

(** The plugin instance. *)
Record Plugin := {
  _struct_namespace_map : gmap string loc;
  store : list Model
}.

(** The functions of [typing] and [pydantic] that the plugin calls.
    [typing_Union type_args] is [Union[*type_args]];
    [pydantic_create_model name config field_definitions] is the list of
    fields of the class that [create_model(name, __config__=config,
    **field_definitions)] returns. Either may raise. *)
Record Collaborators := {
  typing_Union : list ptype -> result ptype;
  pydantic_create_model :
    string -> Config -> list (string * (ptype * PFieldInfo)) ->
    result (list (string * (ptype * PFieldInfo)))
}.

(** [MsgspecPlugin.__init__]. *)
Definition __init__ : Plugin :=
  {| _struct_namespace_map := ∅; store := [] |}.

(** [TYPE_CONSTRUCTOR_MAP = {dict: dict, list: list, set: set,
    UnionType: Union}]. *)
Definition TYPE_CONSTRUCTOR_MAP : list (pyclass * constructor) :=
  [(builtin_dict, C_dict); (builtin_list, C_list); (builtin_set, C_set);
   (UnionType, C_Union)].

(** [d[key]] on a dict given by its items: [KeyError] when absent. *)
Fixpoint dict_getitem {V} (d : list (pyclass * V)) (key : pyclass) : result V :=
  match d with
  | [] => Raise KeyError
  | (k, v) :: d' => if decide (k = key) then Ok v else dict_getitem d' key
  end.

(** [d[key] = value] on a dict given by its items: the value of a present key
    is replaced in place, a new key goes to the end. *)
Fixpoint dict_setitem {V} (d : list (string * V)) (key : string) (value : V)
  : list (string * V) :=
  match d with
  | [] => [(key, value)]
  | (k, v) :: d' =>
      if decide (k = key) then (k, value) :: d'
      else (k, v) :: dict_setitem d' key value
  end.

(** ** The methods of [MsgspecPlugin] *)

Definition is_plugin_supported_type (value : pytype) : result bool :=
  match issubclass_Struct value with
  | Ok b => Ok b
  | Raise TypeError => Ok false
  | Raise e => Raise e
  end.

Definition handle_nested_stuct (self : Plugin) (struct : StructClass)
    (parent_name : string) (parent_nested_structs : list StructClass)
  : list StructClass :=
  let nested_struct_name := __name__ struct in
  if bool_decide (nested_struct_name ≠ parent_name)
     && bool_decide (nested_struct_name ∉ dom (_struct_namespace_map self))
  then parent_nested_structs ++ [struct]
  else parent_nested_structs.

Definition is_complex_type (type_ : pytype) : bool :=
  match __origin__ type_ with
  | Some origin => bool_decide (origin ∈ [builtin_list; builtin_set])
  | None => false
  end
  || bool_decide (__class__ type_ = UnionType).

(** [t is None.__class__]. *)
Definition is_NoneType (t : pytype) : bool :=
  match t with
  | TNoneType => true
  | _ => false
  end.

(** [constructor[*type_args]] for a value [constructor] of
    [TYPE_CONSTRUCTOR_MAP]: [typing.Union] decides what its subscription
    returns; the builtin classes make a generic alias of any arguments. *)
Definition subscript (lib : Collaborators) (c : constructor)
    (type_args : list ptype) : result ptype :=
  match c with
  | C_Union => typing_Union lib type_args
  | _ => Ok (PApp c type_args)
  end.

(** The body of the loop [for t in type_.__args__] of [get_complex_type];
    [rec] is the recursive call. It returns the discovery list as the loop
    left it, and the list [type_args] or the exception that ended the loop. *)
Definition get_complex_type_loop
    (rec : pytype -> list StructClass -> list StructClass * result ptype)
    (self : Plugin) (parent_name : string)
  : list pytype -> list ptype -> list StructClass ->
    list StructClass * result (list ptype) :=
  fix loop ts type_args parent_nested_structs :=
    match ts with
    | [] => (parent_nested_structs, Ok type_args)
    | t :: ts' =>
        match as_struct t with
        | Some cls =>
            loop ts' (type_args ++ [PRef (__name__ cls)])
              (handle_nested_stuct self cls parent_name parent_nested_structs)
        | None =>
            if is_NoneType t then
              loop ts' (type_args ++ [PNone]) parent_nested_structs
            else if is_complex_type t then
              match rec t parent_nested_structs with
              | (nested, Ok p) => loop ts' (type_args ++ [p]) nested
              | (nested, Raise e) => (nested, Raise e)
              end
            else loop ts' (type_args ++ [PKeep t]) parent_nested_structs
        end
    end.

(** [type_.__origin__ if hasattr(type_, "__origin__") else type_.__class__]. *)
Definition type_root (type_ : pytype) : pyclass :=
  match __origin__ type_ with
  | Some origin => origin
  | None => __class__ type_
  end.

(** An object without [__args__] raises [AttributeError] at the head of the
    loop, after [type_root] has been read. *)
Fixpoint get_complex_type (lib : Collaborators) (self : Plugin)
    (type_ : pytype) (parent_name : string)
    (parent_nested_structs : list StructClass)
    {struct type_} : list StructClass * result ptype :=
  match type_ with
  | TGeneric _ args | TUnionType args =>
      match get_complex_type_loop
              (fun t nested => get_complex_type lib self t parent_name nested)
              self parent_name args [] parent_nested_structs with
      | (nested, Ok type_args) =>
          (nested,
           match dict_getitem TYPE_CONSTRUCTOR_MAP (type_root type_) with
           | Ok c => subscript lib c type_args
           | Raise e => Raise e
           end)
      | (nested, Raise e) => (nested, Raise e)
      end
  | _ => (parent_nested_structs, Raise AttributeError)
  end.

Definition generate_field_info (field : MFieldInfo.t) : PFieldInfo :=
  let kwargs0 : gmap string pyvalue := ∅ in
  let kwargs1 :=
    match MFieldInfo.encode_name field with
    | Some encode_name => <["alias" := PyStr encode_name]> kwargs0
    | None => kwargs0
    end in
  let kwargs2 :=
    if bool_decide (MFieldInfo.default field ≠ NODEFAULT)
    then <["default" := MFieldInfo.default field]> kwargs1
    else kwargs1 in
  let kwargs3 :=
    if bool_decide (MFieldInfo.default_factory field ≠ NODEFAULT)
    then <["default_factory" := MFieldInfo.default_factory field]> kwargs2
    else kwargs2 in
  {| field_info_kwargs := kwargs3 |}.

(** *** Resolution of forward references *)

(** The configuration class built by [type("Config", (), {...})]. *)
Definition the_config : Config :=
  {| orm_mode := true;
     arbitrary_types_allowed := true;
     use_enum_values := true;
     allow_population_by_field_name := true |}.

(** A walk from left to right that stops at the first failure: [step a
    running] is the new [a] and whether the walk goes on. *)
Definition walk_list {A} (step : A -> bool -> A * bool)
  : list A -> bool -> list A * bool :=
  fix walk l running :=
    match l with
    | [] => ([], running)
    | a :: l' =>
        let r := step a running in
        let r' := walk l' r.2 in
        (r.1 :: r'.1, r'.2)
    end.

(** The walk over one type expression. *)
Fixpoint resolve (localns : gmap string loc) (p : ptype) (running : bool)
  : ptype * bool :=
  if running then
    match p with
    | PRef name =>
        match localns !! name with
        | Some l => (PModel l, true)
        | None => (PRef name, false)
        end
    | PApp c type_args =>
        let r := walk_list (resolve localns) type_args true in
        (PApp c r.1, r.2)
    | _ => (p, true)
    end
  else (p, false).

(** The walk over the type of one field, and over the fields of a
    class. *)
Definition resolve_field (localns : gmap string loc)
    (d : string * (ptype * PFieldInfo)) (running : bool)
  : (string * (ptype * PFieldInfo)) * bool :=
  let r := resolve localns d.2.1 running in ((d.1, (r.1, d.2.2)), r.2).

Definition resolve_fields (localns : gmap string loc)
    (fs : list (string * (ptype * PFieldInfo)))
  : list (string * (ptype * PFieldInfo)) * bool :=
  walk_list (resolve_field localns) fs true.

(** The class object after [model.update_forward_refs(...)] with the
    namespace [localns], whether the call returns or raises. *)
Definition update_forward_refs (localns : gmap string loc) (model : Model)
  : Model :=
  {| model_name := model_name model;
     model_config := model_config model;
     model_fields := (resolve_fields localns (model_fields model)).1 |}.

(** What the call does: it returns [None], or raises [NameError]. *)
Definition update_forward_refs_outcome (localns : gmap string loc)
    (model : Model) : result unit :=
  if (resolve_fields localns (model_fields model)).2 then Ok tt
  else Raise NameError.

(** *** Computations on the plugin instance

    A computation reads and writes [self] and returns a value or raises;
    the state survives an exception. [None] is the interpreter running out of
    fuel. *)

Definition M (A : Type) : Type := Plugin -> option (result A * Plugin).

Global Instance M_ret : MRet M :=
  fun A a self => Some (Ok a, self).

Global Instance M_bind : MBind M :=
  fun A B k m self =>
    match m self with
    | None => None
    | Some (Ok a, self') => k a self'
    | Some (Raise e, self') => Some (Raise e, self')
    end.

Definition get_self : M Plugin := fun self => Some (Ok self, self).

Definition lift {A} (r : result A) : M A := fun self => Some (r, self).

Definition out_of_fuel {A} : M A := fun _ => None.

(** [create_model(name, __config__=config, **field_definitions)]: a new
    class object, unless pydantic raises. *)
Definition create_model (lib : Collaborators) (name : string)
    (config : Config)
    (field_definitions : list (string * (ptype * PFieldInfo))) : M loc :=
  fun self =>
    match pydantic_create_model lib name config field_definitions with
    | Ok fs =>
        Some (Ok (length (store self)),
              {| _struct_namespace_map := _struct_namespace_map self;
                 store := store self ++
                   [{| model_name := name; model_config := config;
                       model_fields := fs |}] |})
    | Raise e => Some (Raise e, self)
    end.

(** [self._struct_namespace_map[name] = model]. *)
Definition namespace_setitem (name : string) (model : loc) : M unit :=
  fun self =>
    Some (Ok tt,
          {| _struct_namespace_map := <[name := model]> (_struct_namespace_map self);
             store := store self |}).

(** [self._struct_namespace_map[name]]. *)
Definition namespace_getitem (name : string) : M loc :=
  fun self =>
    Some (match _struct_namespace_map self !! name with
          | Some model => Ok model
          | None => Raise KeyError
          end, self).

(** [model.update_forward_refs] with the items of
    [self._struct_namespace_map] as keyword arguments: the class object is
    changed in place, also when the call raises. *)
Definition model_update_forward_refs (model : loc) : M unit :=
  fun self =>
    Some (match store self !! model with
          | Some class => update_forward_refs_outcome
                            (_struct_namespace_map self) class
          | None => Ok tt
          end,
          {| _struct_namespace_map := _struct_namespace_map self;
             store := alter (update_forward_refs (_struct_namespace_map self))
                        model (store self) |}).

Fixpoint for_each {A} (l : list A) (body : A -> M unit) : M unit :=
  match l with
  | [] => mret tt
  | a :: l' => body a ;; for_each l' body
  end.

Section Generator.

(** [msgspec.structs.fields]. *)
Variable fields : StructClass -> list MFieldInfo.t.
Variable lib : Collaborators.

(** The loop [for field in fields(model_class)] of
    [to_pydantic_model_class]. *)
Fixpoint scan_fields (self : Plugin) (struct_name : string)
    (fs : list MFieldInfo.t)
    (field_definitions : list (string * (ptype * PFieldInfo)))
    (nested_structs : list StructClass)
  : result (list (string * (ptype * PFieldInfo)) * list StructClass) :=
  match fs with
  | [] => Ok (field_definitions, nested_structs)
  | field :: fs' =>
      match as_struct (MFieldInfo.type field) with
      | Some cls =>
          let nested :=
            handle_nested_stuct self cls struct_name nested_structs in
          scan_fields self struct_name fs'
            (dict_setitem field_definitions (MFieldInfo.name field)
               (PRef (__name__ cls), generate_field_info field))
            nested
      | None =>
          if is_complex_type (MFieldInfo.type field) then
            match get_complex_type lib self (MFieldInfo.type field)
                    struct_name nested_structs with
            | (nested, Ok pydantic_type) =>
                scan_fields self struct_name fs'
                  (dict_setitem field_definitions (MFieldInfo.name field)
                     (pydantic_type, generate_field_info field))
                  nested
            | (_, Raise e) => Raise e
            end
          else
            scan_fields self struct_name fs'
              (dict_setitem field_definitions (MFieldInfo.name field)
                 (PKeep (MFieldInfo.type field), generate_field_info field))
              nested_structs
      end
  end.

Fixpoint to_pydantic_model_class (fuel : nat) (model_class : StructClass)
  : M loc :=
  match fuel with
  | 0 => out_of_fuel
  | S fuel' =>
      let struct_name := __name__ model_class in
      self ← get_self;
      (if bool_decide (struct_name ∉ dom (_struct_namespace_map self)) then
         scanned ← lift (scan_fields self struct_name (fields model_class) [] []);
         model ← create_model lib struct_name the_config scanned.1;
         namespace_setitem struct_name model;;
         for_each scanned.2
           (fun nested_struct =>
              to_pydantic_model_class fuel' nested_struct;; mret tt)
       else mret tt);;
      model ← namespace_getitem struct_name;
      model_update_forward_refs model;;
      mret model
  end.

End Generator.

(** ** Notions of the specification *)

(** A composite type expression: an ordered sequence, a set or a union
    type, with the constructor of the target system that corresponds to
    it. *)
Definition composite_constructor (t : pytype) : option constructor :=
  match t with
  | TGeneric builtin_list _ => Some C_list
  | TGeneric builtin_set _ => Some C_set
  | TUnionType _ => Some C_Union
  | _ => None
  end.

(** The translation of one argument of a composite as section 4.2 of the
    specification words it: a struct class becomes its name, the null type
    becomes [None], a composite is rebuilt by [rec], any other type is passed
    through. *)
Definition argument_translated
    (rec : pytype -> list StructClass -> list StructClass * result ptype)
    (t : pytype) (p : ptype) : Prop :=
  (forall cls, t = TStruct cls -> p = PRef (__name__ cls))
  /\ (t = TNoneType -> p = PNone)
  /\ (is_complex_type t = true ->
      exists nested nested', rec t nested = (nested', Ok p))
  /\ (as_struct t = None -> is_NoneType t = false ->
      is_complex_type t = false -> p = PKeep t).

(** The same, with the rebuilder itself for the composites. *)
Definition translated_argument (lib : Collaborators) (self : Plugin)
    (parent_name : string) (t : pytype) (p : ptype) : Prop :=
  argument_translated
    (fun t nested => get_complex_type lib self t parent_name nested) t p.

(** The item of [field_definitions] that belongs to a field: under the
    name of the field, its metadata and its type, where a struct class is
    replaced by its name, a complex type by what the rebuilder returns for
    it, and any other type is kept. *)
Definition field_translated (lib : Collaborators) (self : Plugin)
    (struct_name : string) (field : MFieldInfo.t)
    (definition : string * (ptype * PFieldInfo)) : Prop :=
  definition.1 = MFieldInfo.name field
  /\ definition.2.2 = generate_field_info field
  /\ (forall cls, MFieldInfo.type field = TStruct cls ->
        definition.2.1 = PRef (__name__ cls))
  /\ (is_complex_type (MFieldInfo.type field) = true ->
      exists nested nested',
        get_complex_type lib self (MFieldInfo.type field) struct_name nested
        = (nested', Ok definition.2.1))
  /\ (as_struct (MFieldInfo.type field) = None ->
      is_complex_type (MFieldInfo.type field) = false ->
      definition.2.1 = PKeep (MFieldInfo.type field)).

(** The struct classes a type expression refers to in a place the
    translator looks at: the expression itself, or an argument, at any depth,
    of list, set and union-type composites. *)
Fixpoint discovered (t : pytype) : list StructClass :=
  match t with
  | TStruct cls => [cls]
  | TGeneric builtin_list args => flat_map discovered args
  | TGeneric builtin_set args => flat_map discovered args
  | TUnionType args => flat_map discovered args
  | _ => []
  end.

(** Every struct class that occurs in a type expression, in any place. *)
Fixpoint mentioned (t : pytype) : list StructClass :=
  match t with
  | TStruct cls => [cls]
  | TGeneric _ args | TUnionType args => flat_map mentioned args
  | _ => []
  end.

(** The test of [handle_nested_stuct]. *)
Definition to_discover (self : Plugin) (parent_name : string)
    (struct : StructClass) : bool :=
  bool_decide (__name__ struct ≠ parent_name)
  && bool_decide (__name__ struct ∉ dom (_struct_namespace_map self)).

(** The names a type expression still refers to by a string. *)
Fixpoint unresolved (p : ptype) : list string :=
  match p with
  | PRef name => [name]
  | PApp _ type_args => flat_map unresolved type_args
  | _ => []
  end.

(** ** The collaborators on the examples

    What [typing.Union] and [pydantic.create_model] (pydantic 1.10) do on
    the inputs of the examples below. [Union[...]] rejects an empty list and
    the plain classes [Generic] and [Protocol], flattens unions among its
    arguments, removes repeated arguments and returns a single remaining
    argument as it is. [create_model] raises [NameError] on a field named as
    an attribute of [BaseModel], leaves out the fields whose name starts
    with an underscore and keeps the other definitions. *)

Definition list_eqb {A} (eqb : A -> A -> bool) : list A -> list A -> bool :=
  fix go l k :=
    match l, k with
    | [], [] => true
    | a :: l', b :: k' => eqb a b && go l' k'
    | _, _ => false
    end.

Fixpoint pytype_eqb (t u : pytype) : bool :=
  match t, u with
  | TClass q, TClass q' => bool_decide (q = q')
  | TNoneType, TNoneType => true
  | TStruct c, TStruct c' => bool_decide (c = c')
  | TGeneric o args, TGeneric o' args' =>
      bool_decide (o = o') && list_eqb pytype_eqb args args'
  | TUnionType args, TUnionType args' => list_eqb pytype_eqb args args'
  | TValue v, TValue v' => bool_decide (v = v')
  | TAlias o, TAlias o' => bool_decide (o = o')
  | _, _ => false
  end.

Fixpoint ptype_eqb (p q : ptype) : bool :=
  match p, q with
  | PRef n, PRef n' => bool_decide (n = n')
  | PNone, PNone => true
  | PApp c args, PApp c' args' =>
      match c, c' with
      | C_dict, C_dict | C_list, C_list | C_set, C_set | C_Union, C_Union =>
          list_eqb ptype_eqb args args'
      | _, _ => false
      end
  | PKeep t, PKeep t' => pytype_eqb t t'
  | PModel l, PModel l' => bool_decide (l = l')
  | _, _ => false
  end.

(** The arguments without repetition, each at its first place. *)
Fixpoint deduplicate (seen : list ptype) (l : list ptype) : list ptype :=
  match l with
  | [] => []
  | p :: l' =>
      if existsb (ptype_eqb p) seen then deduplicate seen l'
      else p :: deduplicate (p :: seen) l'
  end.

Definition union_members (p : ptype) : list ptype :=
  match p with
  | PApp C_Union members => members
  | _ => [p]
  end.

Definition not_a_type_argument (p : ptype) : bool :=
  match p with
  | PKeep (TClass qualname) =>
      bool_decide (qualname ∈ ["typing.Generic"; "typing.Protocol"])
  | _ => false
  end.

Definition python_Union (parameters : list ptype) : result ptype :=
  match parameters with
  | [] => Raise TypeError
  | _ =>
      if existsb not_a_type_argument parameters then Raise TypeError
      else
        match deduplicate [] (flat_map union_members parameters) with
        | [p] => Ok p
        | members => Ok (PApp C_Union members)
        end
  end.

(** Some attributes of [pydantic.BaseModel]. *)
Definition BaseModel_attributes : list string :=
  ["json"; "dict"; "copy"; "schema"; "schema_json"; "construct"; "validate";
   "parse_obj"; "parse_raw"; "parse_file"; "from_orm"; "update_forward_refs"].

Definition starts_with_underscore (name : string) : bool :=
  match name with
  | String c _ => bool_decide (String c EmptyString = "_")
  | EmptyString => false
  end.

Definition python_create_model (name : string) (config : Config)
    (field_definitions : list (string * (ptype * PFieldInfo)))
  : result (list (string * (ptype * PFieldInfo))) :=
  if existsb (fun d => bool_decide (d.1 ∈ BaseModel_attributes))
       field_definitions
  then Raise NameError
  else Ok (filter (fun d => starts_with_underscore d.1 = false)
             field_definitions).

Definition python_libraries : Collaborators :=
  {| typing_Union := python_Union;
     pydantic_create_model := python_create_model |}.

(** ** Example classes *)

Definition Pet : StructClass := {| class_id := 1; __name__ := "Pet" |}.
Definition Owner : StructClass := {| class_id := 2; __name__ := "Owner" |}.
Definition Node : StructClass := {| class_id := 3; __name__ := "Node" |}.
Definition Kennel : StructClass := {| class_id := 4; __name__ := "Kennel" |}.
(** A second class named [Pet], declared in another module. *)
Definition Pet' : StructClass := {| class_id := 5; __name__ := "Pet" |}.
Definition Clinic : StructClass := {| class_id := 6; __name__ := "Clinic" |}.
Definition Toy : StructClass := {| class_id := 7; __name__ := "Toy" |}.
Definition Branch : StructClass := {| class_id := 8; __name__ := "Branch" |}.
Definition Tree : StructClass := {| class_id := 9; __name__ := "Tree" |}.
Definition Shelter : StructClass := {| class_id := 10; __name__ := "Shelter" |}.

Definition required (name : string) (type : pytype) : MFieldInfo.t :=
  MFieldInfo.mk name type NODEFAULT NODEFAULT (Some name).

(** [typing.List], without arguments. *)
Definition typing_List : pytype := TAlias builtin_list.

(** [class Pet(Struct): name: str], [class Owner(Struct): name: str;
    pets: list[Pet]], [class Node(Struct): children: list[Node]],
    [class Kennel(Struct): pets: tuple[Pet, ...]], a second
    [class Pet(Struct): age: int = 0; toy: Toy],
    [class Clinic(Struct): first: Pet; second: Pet] whose second field is of
    the second class [Pet], [class Toy(Struct): name: str],
    [class Branch(Struct): children: list[Branch]; json: str],
    [class Tree(Struct): children: list[Tree]; leaves: typing.List] and
    [class Shelter(Struct): branch: Branch; pet: Pet]. *)
Definition example_fields (cls : StructClass) : list MFieldInfo.t :=
  match class_id cls with
  | 1 => [required "name" (TClass "str")]
  | 2 => [required "name" (TClass "str");
          required "pets" (TGeneric builtin_list [TStruct Pet])]
  | 3 => [required "children" (TGeneric builtin_list [TStruct Node])]
  | 4 => [required "pets"
            (TGeneric (other_class "tuple") [TStruct Pet; TValue PyEllipsis])]
  | 5 => [MFieldInfo.mk "age" (TClass "int") (PyInt 0) NODEFAULT (Some "age");
          required "toy" (TStruct Toy)]
  | 6 => [required "first" (TStruct Pet); required "second" (TStruct Pet')]
  | 7 => [required "name" (TClass "str")]
  | 8 => [required "children" (TGeneric builtin_list [TStruct Branch]);
          required "json" (TClass "str")]
  | 9 => [required "children" (TGeneric builtin_list [TStruct Tree]);
          required "leaves" typing_List]
  | 10 => [required "branch" (TStruct Branch); required "pet" (TStruct Pet)]
  | _ => []
  end.

(** [dict[str, int]] and [set[Pet | Owner] | None]. *)
Definition dict_str_int : pytype :=
  TGeneric builtin_dict [TClass "str"; TClass "int"].
Definition optional_set_of_union : pytype :=
  TUnionType [TGeneric builtin_set [TUnionType [TStruct Pet; TStruct Owner]];
              TNoneType].

(** ** The struct type graph *)

Section Graph.

Variable fields : StructClass -> list MFieldInfo.t.

(** The struct classes that the fields of a class refer to, in the places
    the translator looks at. *)
Definition children (cls : StructClass) : list StructClass :=
  flat_map (fun field => discovered (MFieldInfo.type field)) (fields cls).

Definition edge (cls cls' : StructClass) : Prop := cls' ∈ children cls.

(** [reachable cls cls']: [cls'] is [cls] or a nested struct class of it,
    directly or transitively. *)
Definition reachable : StructClass -> StructClass -> Prop := rtc edge.

(** Every struct class a field type of a class names, in any place. *)
Definition references (cls : StructClass) : list StructClass :=
  flat_map (fun field => mentioned (MFieldInfo.type field)) (fields cls).

End Graph.

(** ** What one conversion does to the plugin *)

(** The plugin after [self._struct_namespace_map[name] = create_model(...)],
    when the class that pydantic returns has the fields [fs]. *)
Definition registered (self : Plugin) (name : string)
    (fs : list (string * (ptype * PFieldInfo))) : Plugin :=
  {| _struct_namespace_map :=
       <[name := length (store self)]> (_struct_namespace_map self);
     store := store self ++
       [{| model_name := name; model_config := the_config;
           model_fields := fs |}] |}.

(** The plugin after [model.update_forward_refs] on the class at [l]. *)
Definition resolved (self : Plugin) (l : loc) : Plugin :=
  {| _struct_namespace_map := _struct_namespace_map self;
     store := alter (update_forward_refs (_struct_namespace_map self)) l
                (store self) |}.

(** What [model.update_forward_refs] on the class at [l] does. *)
Definition resolution_outcome (self : Plugin) (l : loc) : result unit :=
  match store self !! l with
  | Some class => update_forward_refs_outcome (_struct_namespace_map self) class
  | None => Ok tt
  end.

(** The last three statements of [to_pydantic_model_class]. *)
Definition return_model (self : Plugin) (struct_name : string)
  : option (result loc * Plugin) :=
  match _struct_namespace_map self !! struct_name with
  | Some model =>
      Some (match resolution_outcome self model with
            | Ok _ => Ok model
            | Raise e => Raise e
            end, resolved self model)
  | None => Some (Raise KeyError, self)
  end.

(** The two ways in which the plugin changes: a class is created and
    registered under a name that is not yet in the cache, or the forward
    references of a registered class are resolved in place. *)
Inductive plugin_step : Plugin -> Plugin -> Prop :=
| step_register self name field_definitions :
    name ∉ dom (_struct_namespace_map self) ->
    plugin_step self (registered self name field_definitions)
| step_resolve self name l :
    _struct_namespace_map self !! name = Some l ->
    plugin_step self (resolved self l).

(** The operations of a plugin instance. Only the forward conversion
    returns a changed plugin; the other methods read [self] at most. *)
Inductive operation :=
| call_to_pydantic_model_class (fuel : nat) (model_class : StructClass)
| call_get_complex_type (type_ : pytype) (parent_name : string)
    (parent_nested_structs : list StructClass)
| call_handle_nested_stuct (struct : StructClass) (parent_name : string)
    (parent_nested_structs : list StructClass)
| call_is_complex_type (type_ : pytype)
| call_generate_field_info (field : MFieldInfo.t)
| call_is_plugin_supported_type (value : pytype).

Section Calls.

Variable fields : StructClass -> list MFieldInfo.t.
Variable lib : Collaborators.

(** The plugin after one operation, whatever the operation returns. *)
Definition perform (op : operation) (self : Plugin) : option Plugin :=
  match op with
  | call_to_pydantic_model_class fuel model_class =>
      match to_pydantic_model_class fields lib fuel model_class self with
      | Some (_, self') => Some self'
      | None => None
      end
  | call_get_complex_type type_ parent_name parent_nested_structs =>
      let _ := get_complex_type lib self type_ parent_name
                 parent_nested_structs in
      Some self
  | call_handle_nested_stuct struct parent_name parent_nested_structs =>
      let _ := handle_nested_stuct self struct parent_name
                 parent_nested_structs in
      Some self
  | call_is_complex_type type_ =>
      let _ := is_complex_type type_ in Some self
  | call_generate_field_info field =>
      let _ := generate_field_info field in Some self
  | call_is_plugin_supported_type value =>
      let _ := is_plugin_supported_type value in Some self
  end.

(** A sequence of operations on one plugin instance. *)
Fixpoint run_calls (calls : list operation) (self : Plugin) : option Plugin :=
  match calls with
  | [] => Some self
  | op :: calls' =>
      match perform op self with
      | Some self' => run_calls calls' self'
      | None => None
      end
  end.

End Calls.

(** The cache and the store agree: every cached name is bound to a class
    of that name, and there are as many classes as names. *)
Definition one_class_per_name (self : Plugin) : Prop :=
  (forall name l, _struct_namespace_map self !! name = Some l ->
     exists model, store self !! l = Some model /\ model_name model = name)
  /\ size (_struct_namespace_map self) = length (store self).

(** [discovery_closed fields U self self']: every class of [U] whose name
    entered the cache between [self] and [self'] has the names of all its
    children in the cache of [self']. *)
Definition discovery_closed (fields : StructClass -> list MFieldInfo.t)
    (U : StructClass -> Prop) (self self' : Plugin) : Prop :=
  forall x, U x ->
    __name__ x ∈ dom (_struct_namespace_map self') ->
    __name__ x ∉ dom (_struct_namespace_map self) ->
    forall y, edge fields x y -> __name__ y ∈ dom (_struct_namespace_map self').

(** [covered fields names cls]: the names of the struct classes reachable
    from [cls] lie in the finite set [names]. *)
Definition covered (fields : StructClass -> list MFieldInfo.t)
    (names : gset string) (cls : StructClass) : Prop :=
  forall x, reachable fields cls x -> __name__ x ∈ names.

(** [self_reference_kept name l field_name info self]: the name is cached
    at [l], and the class at [l] has the field [field_name] typed as a list
    of the name, as a string or already resolved to [l]. *)
Definition self_reference_kept (name : string) (l : loc) (field_name : string)
    (info : PFieldInfo) (self : Plugin) : Prop :=
  _struct_namespace_map self !! name = Some l
  /\ exists model, store self !! l = Some model
       /\ ((field_name, (PApp C_list [PRef name], info)) ∈ model_fields model
           \/ (field_name, (PApp C_list [PModel l], info)) ∈ model_fields model).

(** ** Induction on type expressions, through the argument lists *)

Section pytype_induction.

Variable P : pytype -> Prop.
Hypothesis HClass : forall q, P (TClass q).
Hypothesis HNone : P TNoneType.
Hypothesis HStruct : forall cls, P (TStruct cls).
Hypothesis HGeneric : forall o args, Forall P args -> P (TGeneric o args).
Hypothesis HUnion : forall args, Forall P args -> P (TUnionType args).
Hypothesis HValue : forall v, P (TValue v).
Hypothesis HAlias : forall o, P (TAlias o).

Fixpoint pytype_nested_ind (t : pytype) : P t :=
  match t with
  | TClass q => HClass q
  | TNoneType => HNone
  | TStruct cls => HStruct cls
  | TGeneric o args =>
      HGeneric o args
        ((fix all (l : list pytype) : Forall P l :=
            match l with
            | [] => Forall_nil_2 P
            | t' :: l' => Forall_cons_2 P t' l' (pytype_nested_ind t') (all l')
            end) args)
  | TUnionType args =>
      HUnion args
        ((fix all (l : list pytype) : Forall P l :=
            match l with
            | [] => Forall_nil_2 P
            | t' :: l' => Forall_cons_2 P t' l' (pytype_nested_ind t') (all l')
            end) args)
  | TValue v => HValue v
  | TAlias o => HAlias o
  end.

End pytype_induction.

Section ptype_induction.

Variable P : ptype -> Prop.
Hypothesis HRef : forall name, P (PRef name).
Hypothesis HNoneP : P PNone.
Hypothesis HApp : forall c type_args, Forall P type_args -> P (PApp c type_args).
Hypothesis HKeep : forall t, P (PKeep t).
Hypothesis HModel : forall l, P (PModel l).

Fixpoint ptype_nested_ind (p : ptype) : P p :=
  match p with
  | PRef name => HRef name
  | PNone => HNoneP
  | PApp c type_args =>
      HApp c type_args
        ((fix all (l : list ptype) : Forall P l :=
            match l with
            | [] => Forall_nil_2 P
            | p' :: l' => Forall_cons_2 P p' l' (ptype_nested_ind p') (all l')
            end) type_args)
  | PKeep t => HKeep t
  | PModel l => HModel l
  end.

End ptype_induction.

(** * Properties *)
(** ** The type classifier *)

(** C6: [is_complex_type] is a total function of its argument alone; it
    answers true exactly when the argument has an [__origin__] that is
    [list] or [set], or its [__class__] is [UnionType]. It answers false on
    ordinary classes, on struct classes and on every object without
    [__origin__] whose class is not [UnionType]. *)
Theorem is_complex_type_iff (type_ : pytype) :
  (is_complex_type type_ = true <->
     (exists origin, __origin__ type_ = Some origin
                     /\ (origin = builtin_list \/ origin = builtin_set))
     \/ __class__ type_ = UnionType)
  /\ (forall qualname, is_complex_type (TClass qualname) = false)
  /\ (forall cls, is_complex_type (TStruct cls) = false)
  /\ (forall v, is_complex_type (TValue v) = false)
  /\ (__origin__ type_ = None -> __class__ type_ <> UnionType ->
      is_complex_type type_ = false).
Proof.
  split_and!.
  - unfold is_complex_type. rewrite orb_true_iff.
    destruct (__origin__ type_) as [origin|].
    + rewrite !bool_decide_eq_true, !elem_of_cons, elem_of_nil. naive_solver.
    + rewrite bool_decide_eq_true. naive_solver.
  - intros qualname. reflexivity.
  - intros cls. reflexivity.
  - intros []; reflexivity.
  - unfold is_complex_type. intros -> Hc. by rewrite bool_decide_eq_false_2.
Qed.

Lemma is_complex_type_iff_witness :
  is_complex_type (TValue (PyInt 3)) = false
  /\ is_complex_type (TGeneric builtin_set [TClass "int"]) = true.
Proof.
  split.
  - destruct (is_complex_type_iff (TValue (PyInt 3))) as (_ & _ & _ & _ & H).
    apply H; [reflexivity|by vm_compute].
  - destruct (is_complex_type_iff (TGeneric builtin_set [TClass "int"]))
      as ([_ H] & _).
    apply H. left. exists builtin_set. split; [reflexivity|by right].
Defined.

(** C9: the capability check never raises; it answers true exactly on a
    class that derives from [Struct], and false on every value that is not
    a class. *)
Theorem is_plugin_supported_type_total (value : pytype) :
  exists b, is_plugin_supported_type value = Ok b
    /\ (b = true <-> isclass value = true /\ issubclass_Struct value = Ok true)
    /\ (isclass value = false ->
        issubclass_Struct value = Raise TypeError /\ b = false).
Proof.
  destruct value; cbn; eexists; (split; [reflexivity|]); cbn;
    intuition (try discriminate; try done).
Qed.

Lemma is_plugin_supported_type_total_witness :
  is_plugin_supported_type (TValue (PyInt 3)) = Ok false
  /\ is_plugin_supported_type (TStruct Pet) = Ok true.
Proof.
  split.
  - destruct (is_plugin_supported_type_total (TValue (PyInt 3)))
      as (b & Hb & _ & Hnc).
    destruct (Hnc eq_refl) as [_ ->]. exact Hb.
  - destruct (is_plugin_supported_type_total (TStruct Pet))
      as (b & Hb & [_ Hs] & _).
    rewrite (Hs (conj eq_refl eq_refl)) in Hb. exact Hb.
Defined.


(** ** The rebuilder *)

(** *** The test of [handle_nested_stuct] and the classifier *)

Lemma handle_nested_stuct_filter self cls parent_name nested :
  handle_nested_stuct self cls parent_name nested
  = nested ++ filter (fun s => to_discover self parent_name s = true) [cls].
Proof.
  unfold handle_nested_stuct. rewrite filter_cons, filter_nil.
  fold (to_discover self parent_name cls).
  destruct (to_discover self parent_name cls) eqn:E.
  - by rewrite decide_True.
  - rewrite decide_False by done. by rewrite app_nil_r.
Qed.

Lemma as_struct_Some t cls : as_struct t = Some cls <-> t = TStruct cls.
Proof. destruct t; cbn; split; intros; try discriminate; congruence. Qed.

Lemma complex_discovered t args :
  is_complex_type t = true -> __args__ t = Some args ->
  discovered t = flat_map discovered args.
Proof.
  destruct t as [| | |o ?|?|v|]; cbn; try discriminate.
  - destruct o; try discriminate; intros; by simplify_eq.
  - intros; by simplify_eq.
Qed.

Lemma plain_argument t :
  as_struct t = None -> is_NoneType t = false -> is_complex_type t = false ->
  discovered t = [].
Proof.
  destruct t as [| | |o args|args| |]; cbn; try done.
  destruct o; cbn; done.
Qed.

Lemma elem_of_to_discover self parent_name cls (l : list StructClass) :
  cls ∈ filter (fun s => to_discover self parent_name s = true) l <->
  cls ∈ l /\ __name__ cls <> parent_name
  /\ __name__ cls ∉ dom (_struct_namespace_map self).
Proof.
  rewrite list_elem_of_filter. unfold to_discover.
  rewrite andb_true_iff, !bool_decide_eq_true. tauto.
Qed.

(** The struct classes among the arguments of a parametrised type that the
    walk of the rebuilder can meet. *)
Lemma TYPE_CONSTRUCTOR_MAP_getitem root :
  (exists c, dict_getitem TYPE_CONSTRUCTOR_MAP root = Ok c
             /\ root ∈ [builtin_dict; builtin_list; builtin_set; UnionType])
  \/ (dict_getitem TYPE_CONSTRUCTOR_MAP root = Raise KeyError
      /\ root ∉ [builtin_dict; builtin_list; builtin_set; UnionType]).
Proof.
  destruct root; cbn;
    try (left; eexists; split; [reflexivity|];
         rewrite !elem_of_cons; tauto).
  right. split; [done|]. rewrite !not_elem_of_cons. split_and!; try done.
  apply not_elem_of_nil.
Qed.

Lemma complex_root_known t :
  is_complex_type t = true ->
  exists c, dict_getitem TYPE_CONSTRUCTOR_MAP (type_root t) = Ok c.
Proof.
  destruct t as [| | |o ?|?|v|o]; cbn; try discriminate.
  - destruct o; try discriminate; intros _; by eexists.
  - intros _. by eexists.
  - by destruct v.
  - destruct o; try discriminate; intros _; by eexists.
Qed.

(** *** The walk over the arguments *)

Section Walk.

Variable rec : pytype -> list StructClass -> list StructClass * result ptype.
Variable self : Plugin.
Variable parent_name : string.

Lemma argument_struct cls :
  argument_translated rec (TStruct cls) (PRef (__name__ cls)).
Proof. split_and!; try done. by intros ? [= ->]. Qed.

Lemma argument_None : argument_translated rec TNoneType PNone.
Proof. split_and!; done. Qed.

Lemma argument_complex t nested nested' p :
  as_struct t = None -> is_NoneType t = false -> is_complex_type t = true ->
  rec t nested = (nested', Ok p) -> argument_translated rec t p.
Proof.
  intros Hs Hn Hc Hr. split_and!.
  - intros cls ->. discriminate.
  - intros ->. discriminate.
  - by eexists _, _.
  - intros _ _ E. congruence.
Qed.

Lemma argument_plain t :
  as_struct t = None -> is_NoneType t = false -> is_complex_type t = false ->
  argument_translated rec t (PKeep t).
Proof.
  intros Hs Hn Hc. split_and!; try done.
  - intros cls ->. discriminate.
  - intros ->. discriminate.
  - congruence.
Qed.

(** A walk that comes to its end has translated every argument and has
    discovered every struct class. *)
Lemma get_complex_type_loop_Ok ts :
  Forall (fun t => is_complex_type t = true -> forall nested nested' p,
            rec t nested = (nested', Ok p) ->
            nested' = nested
                      ++ filter (fun s => to_discover self parent_name s = true)
                           (discovered t)) ts ->
  forall type_args nested nested' out,
    get_complex_type_loop rec self parent_name ts type_args nested
    = (nested', Ok out) ->
    nested' = nested ++ filter (fun s => to_discover self parent_name s = true)
                          (flat_map discovered ts)
    /\ exists translated,
         out = type_args ++ translated /\ Forall2 (argument_translated rec) ts translated.
Proof.
  induction 1 as [|t ts Ht _ IH]; intros type_args nested nested' out;
    cbn [get_complex_type_loop].
  - intros [= <- <-]. rewrite !app_nil_r. split; [done|]. exists [].
    by rewrite app_nil_r.
  - cbn [flat_map]. rewrite filter_app, app_assoc.
    destruct (as_struct t) as [cls|] eqn:Hs.
    + apply as_struct_Some in Hs as ->. intros Hloop.
      apply IH in Hloop as [-> (tr & -> & Htr)].
      rewrite handle_nested_stuct_filter. split; [done|].
      exists (PRef (__name__ cls) :: tr). rewrite <- app_assoc.
      split; [done|]. constructor; [apply argument_struct|done].
    + destruct (is_NoneType t) eqn:Hn.
      { destruct t; try discriminate. intros Hloop.
        apply IH in Hloop as [-> (tr & -> & Htr)]. cbn. rewrite app_nil_r.
        split; [done|]. exists (PNone :: tr). rewrite <- app_assoc.
        split; [done|]. constructor; [apply argument_None|done]. }
      destruct (is_complex_type t) eqn:Hc.
      * destruct (rec t nested) as [nested1 [p|e]] eqn:Hr; [|discriminate].
        intros Hloop. apply IH in Hloop as [-> (tr & -> & Htr)].
        rewrite (Ht eq_refl _ _ _ Hr). split; [done|].
        exists (p :: tr). rewrite <- app_assoc. split; [done|].
        constructor; [by eapply argument_complex|done].
      * intros Hloop. apply IH in Hloop as [-> (tr & -> & Htr)].
        rewrite (plain_argument t Hs Hn Hc). cbn. rewrite app_nil_r.
        split; [done|]. exists (PKeep t :: tr). rewrite <- app_assoc.
        split; [done|]. constructor; [by apply argument_plain|done].
Qed.

(** Whatever its end, a walk keeps the discovery list it was given and adds
    to it struct classes among the arguments that pass the test. *)
Lemma get_complex_type_loop_adds ts :
  Forall (fun t => is_complex_type t = true -> forall nested nested' r,
            rec t nested = (nested', r) ->
            exists extra, nested' = nested ++ extra
              /\ forall cls, cls ∈ extra ->
                   cls ∈ discovered t
                   /\ to_discover self parent_name cls = true) ts ->
  forall type_args nested nested' r,
    get_complex_type_loop rec self parent_name ts type_args nested
    = (nested', r) ->
    exists extra, nested' = nested ++ extra
      /\ forall cls, cls ∈ extra ->
           cls ∈ flat_map discovered ts
           /\ to_discover self parent_name cls = true.
Proof.
  induction 1 as [|t ts Ht _ IH]; intros type_args nested nested' r;
    cbn [get_complex_type_loop].
  - intros [= <- <-]. exists []. rewrite app_nil_r. split; [done|].
    by intros cls ?%elem_of_nil.
  - cbn [flat_map].
    assert (forall extra1 extra2 : list StructClass,
              (forall cls, cls ∈ extra1 ->
                 cls ∈ discovered t /\ to_discover self parent_name cls = true) ->
              (forall cls, cls ∈ extra2 ->
                 cls ∈ flat_map discovered ts
                 /\ to_discover self parent_name cls = true) ->
              forall cls, cls ∈ extra1 ++ extra2 ->
                cls ∈ discovered t ++ flat_map discovered ts
                /\ to_discover self parent_name cls = true) as Hjoin.
    { intros e1 e2 H1 H2 cls [Hin|Hin]%elem_of_app.
      - destruct (H1 _ Hin). split; [|done]. apply elem_of_app. by left.
      - destruct (H2 _ Hin). split; [|done]. apply elem_of_app. by right. }
    destruct (as_struct t) as [cls|] eqn:Hs.
    + apply as_struct_Some in Hs as ->. intros Hloop.
      apply IH in Hloop as (extra & -> & Hextra).
      rewrite handle_nested_stuct_filter, <- app_assoc.
      eexists. split; [done|]. apply Hjoin; [|done].
      intros c [Hc Hd]%list_elem_of_filter. done.
    + destruct (is_NoneType t) eqn:Hn.
      { intros Hloop. apply IH in Hloop as (extra & -> & Hextra).
        exists extra. split; [done|]. by apply (Hjoin []);
          [intros c ?%elem_of_nil|]. }
      destruct (is_complex_type t) eqn:Hc.
      * destruct (rec t nested) as [nested1 [p|e]] eqn:Hr.
        -- destruct (Ht eq_refl _ _ _ Hr) as (extra1 & -> & H1). intros Hloop.
           apply IH in Hloop as (extra & -> & Hextra). rewrite <- app_assoc.
           eexists. split; [done|]. by apply Hjoin.
        -- destruct (Ht eq_refl _ _ _ Hr) as (extra1 & -> & H1). intros [= <- <-].
           exists extra1. split; [done|]. rewrite <- (app_nil_r extra1).
           apply Hjoin; [done|]. by intros c ?%elem_of_nil.
      * intros Hloop. apply IH in Hloop as (extra & -> & Hextra).
        exists extra. split; [done|]. by apply (Hjoin []);
          [intros c ?%elem_of_nil|].
Qed.

(** A walk that ends with an exception ends with the exception that the
    rebuilder raised on a complex argument. *)
Lemma get_complex_type_loop_Raise ts :
  forall type_args nested nested' e,
    get_complex_type_loop rec self parent_name ts type_args nested
    = (nested', Raise e) ->
    exists t nested1, t ∈ ts /\ is_complex_type t = true
      /\ rec t nested1 = (nested', Raise e).
Proof.
  induction ts as [|t ts IH]; intros type_args nested nested' e;
    cbn [get_complex_type_loop]; [discriminate|].
  assert (forall acc n,
            get_complex_type_loop rec self parent_name ts acc n
            = (nested', Raise e) ->
            exists t0 nested1, t0 ∈ t :: ts /\ is_complex_type t0 = true
              /\ rec t0 nested1 = (nested', Raise e)) as Hrest.
  { intros acc n Hloop. apply IH in Hloop as (t0 & n1 & Hin & Hc & Hr).
    exists t0, n1. split; [by right|done]. }
  destruct (as_struct t) as [cls|]; [apply Hrest|].
  destruct (is_NoneType t); [apply Hrest|].
  destruct (is_complex_type t) eqn:Hc; [|apply Hrest].
  destruct (rec t nested) as [nested1 [p|e1]] eqn:Hr; [apply Hrest|].
  intros [= <- <-]. exists t, nested. split; [by left|done].
Qed.

(** A walk over arguments none of which is complex comes to its end. *)
Lemma get_complex_type_loop_plain ts :
  (forall t, t ∈ ts -> is_complex_type t = false) ->
  forall type_args nested,
    exists nested' out,
      get_complex_type_loop rec self parent_name ts type_args nested
      = (nested', Ok out).
Proof.
  induction ts as [|t ts IH]; intros Hplain type_args nested;
    cbn [get_complex_type_loop]; [by eexists _, _|].
  assert (forall t0, t0 ∈ ts -> is_complex_type t0 = false) as Hts
    by (intros; apply Hplain; by right).
  destruct (as_struct t); [by apply IH|].
  destruct (is_NoneType t); [by apply IH|].
  rewrite (Hplain t) by (by left). by apply IH.
Qed.

End Walk.

(** *** The outcomes of the rebuilder *)

(** When the rebuilder returns, it has walked all the arguments, found the
    root among the keys and subscripted the constructor. *)
Lemma get_complex_type_Ok lib self parent_name t :
  forall nested nested' out,
    get_complex_type lib self t parent_name nested = (nested', Ok out) ->
    exists args c type_args,
      __args__ t = Some args
      /\ nested' = nested
                   ++ filter (fun s => to_discover self parent_name s = true)
                        (flat_map discovered args)
      /\ dict_getitem TYPE_CONSTRUCTOR_MAP (type_root t) = Ok c
      /\ subscript lib c type_args = Ok out
      /\ Forall2 (translated_argument lib self parent_name) args type_args.
Proof.
  assert (forall args,
    Forall (fun t => forall nested nested' out,
      get_complex_type lib self t parent_name nested = (nested', Ok out) ->
      exists args c type_args,
        __args__ t = Some args
        /\ nested' = nested
                     ++ filter (fun s => to_discover self parent_name s = true)
                          (flat_map discovered args)
        /\ dict_getitem TYPE_CONSTRUCTOR_MAP (type_root t) = Ok c
        /\ subscript lib c type_args = Ok out
        /\ Forall2 (translated_argument lib self parent_name) args type_args)
      args ->
    forall root nested nested' out,
      match get_complex_type_loop
              (fun t nested => get_complex_type lib self t parent_name nested)
              self parent_name args [] nested with
      | (nested1, Ok type_args) =>
          (nested1,
           match dict_getitem TYPE_CONSTRUCTOR_MAP root with
           | Ok c => subscript lib c type_args
           | Raise e => Raise e
           end)
      | (nested1, Raise e) => (nested1, Raise e)
      end = (nested', Ok out) ->
      exists c type_args,
        nested' = nested
                  ++ filter (fun s => to_discover self parent_name s = true)
                       (flat_map discovered args)
        /\ dict_getitem TYPE_CONSTRUCTOR_MAP root = Ok c
        /\ subscript lib c type_args = Ok out
        /\ Forall2 (translated_argument lib self parent_name) args type_args)
    as Hnode.
  { intros args IH root nested nested' out.
    destruct (get_complex_type_loop _ _ _ _ _ _) as [nested1 [type_args|e]]
      eqn:Hloop; [|discriminate].
    apply get_complex_type_loop_Ok in Hloop as [-> (tr & -> & Htr)].
    - destruct (dict_getitem TYPE_CONSTRUCTOR_MAP root) as [c|e] eqn:Hc;
        [|discriminate].
      intros [= <- Hsub]. by exists c, tr.
    - eapply Forall_impl; [exact IH|]. cbn beta.
      intros t0 Ht Hc n n' p Hr.
      destruct (Ht _ _ _ Hr) as (args' & _ & _ & Ha & -> & _).
      by rewrite (complex_discovered _ _ Hc Ha). }
  induction t as [| | |o args IH|args IH| |] using pytype_nested_ind;
    intros nested nested' out; try discriminate.
  - cbn [get_complex_type]. intros Hrun.
    destruct (Hnode _ IH (type_root (TGeneric o args)) _ _ _ Hrun)
      as (c & type_args & ? & ? & ? & ?).
    by exists args, c, type_args.
  - cbn [get_complex_type]. intros Hrun.
    destruct (Hnode _ IH (type_root (TUnionType args)) _ _ _ Hrun)
      as (c & type_args & ? & ? & ? & ?).
    by exists args, c, type_args.
Qed.

Lemma get_complex_type_adds lib self parent_name t :
  forall nested nested' r,
    get_complex_type lib self t parent_name nested = (nested', r) ->
    exists extra, nested' = nested ++ extra
      /\ forall cls, cls ∈ extra ->
           cls ∈ match __args__ t with
                 | Some args => flat_map discovered args
                 | None => []
                 end
           /\ to_discover self parent_name cls = true.
Proof.
  assert (forall args,
    Forall (fun t => forall nested nested' r,
      get_complex_type lib self t parent_name nested = (nested', r) ->
      exists extra, nested' = nested ++ extra
        /\ forall cls, cls ∈ extra ->
             cls ∈ match __args__ t with
                   | Some args => flat_map discovered args
                   | None => []
                   end
             /\ to_discover self parent_name cls = true) args ->
    forall root nested nested' r,
      match get_complex_type_loop
              (fun t nested => get_complex_type lib self t parent_name nested)
              self parent_name args [] nested with
      | (nested1, Ok type_args) =>
          (nested1,
           match dict_getitem TYPE_CONSTRUCTOR_MAP root with
           | Ok c => subscript lib c type_args
           | Raise e => Raise e
           end)
      | (nested1, Raise e) => (nested1, Raise e)
      end = (nested', r) ->
      exists extra, nested' = nested ++ extra
        /\ forall cls, cls ∈ extra ->
             cls ∈ flat_map discovered args
             /\ to_discover self parent_name cls = true) as Hnode.
  { intros args IH root nested nested' r.
    destruct (get_complex_type_loop _ _ _ _ _ _) as [nested1 r1] eqn:Hloop.
    apply get_complex_type_loop_adds in Hloop as (extra & -> & Hextra).
    - intros E. exists extra. split; [|done]. by destruct r1; simplify_eq.
    - eapply Forall_impl; [exact IH|]. cbn beta.
      intros t0 Ht Hc n n' r' Hr.
      destruct (Ht _ _ _ Hr) as (extra & -> & Hextra).
      exists extra. split; [done|]. intros cls Hcls.
      destruct (Hextra _ Hcls) as [Hin ?]. split; [|done].
      destruct (__args__ t0) as [args'|] eqn:Ha;
        [|by apply elem_of_nil in Hin].
      by rewrite (complex_discovered _ _ Hc Ha). }
  assert (forall (nested nested' : list StructClass) (r : result ptype),
            (nested, Raise AttributeError) = (nested', r) ->
            exists extra, nested' = nested ++ extra
              /\ forall cls, cls ∈ extra ->
                   cls ∈ [] /\ to_discover self parent_name cls = true)
    as Hnone.
  { intros nested nested' r [= <- <-]. exists []. rewrite app_nil_r.
    split; [done|]. by intros cls ?%elem_of_nil. }
  induction t as [| | |o args IH|args IH| |] using pytype_nested_ind;
    intros nested nested' r; cbn [get_complex_type __args__];
    try apply Hnone.
  - by apply (Hnode args IH (type_root (TGeneric o args))).
  - by apply (Hnode args IH (type_root (TUnionType args))).
Qed.

(** The exceptions of the rebuilder: [AttributeError] from an object
    without [__args__], [KeyError] from the lookup of the root, or what
    [typing.Union] raised. *)
Lemma get_complex_type_Raise lib self parent_name t :
  forall nested nested' e,
    get_complex_type lib self t parent_name nested = (nested', Raise e) ->
    e = AttributeError
    \/ (e = KeyError
        /\ type_root t ∉ [builtin_dict; builtin_list; builtin_set; UnionType])
    \/ exists type_args, typing_Union lib type_args = Raise e.
Proof.
  assert (forall args,
    Forall (fun t => is_complex_type t = true -> forall nested nested' e,
      get_complex_type lib self t parent_name nested = (nested', Raise e) ->
      e = AttributeError
      \/ exists type_args, typing_Union lib type_args = Raise e) args ->
    forall root nested nested' e,
      match get_complex_type_loop
              (fun t nested => get_complex_type lib self t parent_name nested)
              self parent_name args [] nested with
      | (nested1, Ok type_args) =>
          (nested1,
           match dict_getitem TYPE_CONSTRUCTOR_MAP root with
           | Ok c => subscript lib c type_args
           | Raise e => Raise e
           end)
      | (nested1, Raise e) => (nested1, Raise e)
      end = (nested', Raise e) ->
      e = AttributeError
      \/ (e = KeyError
          /\ root ∉ [builtin_dict; builtin_list; builtin_set; UnionType])
      \/ exists type_args, typing_Union lib type_args = Raise e) as Hnode.
  { intros args IH root nested nested' e.
    destruct (get_complex_type_loop _ _ _ _ _ _) as [nested1 [type_args|e1]]
      eqn:Hloop.
    - destruct (TYPE_CONSTRUCTOR_MAP_getitem root)
        as [(c & -> & _)|[-> Hout]].
      + intros [= <- Hsub]. right. right.
        destruct c; cbn in Hsub; try discriminate. by eexists.
      + intros [= <- <-]. right. by left.
    - intros [= <- <-].
      apply get_complex_type_loop_Raise in Hloop as (t0 & n1 & Hin & Hc & Hr).
      rewrite Forall_forall in IH.
      destruct (IH t0 Hin Hc _ _ _ Hr) as [->|?]; [by left|by right; right]. }
  induction t as [| | |o args IH|args IH| |] using pytype_nested_ind;
    intros nested nested' e; cbn [get_complex_type];
    try (intros [= <- <-]; by left).
  - intros Hrun.
    refine (Hnode args _ (type_root (TGeneric o args)) _ _ _ Hrun).
    eapply Forall_impl; [exact IH|]. cbn beta. intros t0 Ht Hc n n' e' Hr.
    destruct (Ht _ _ _ Hr) as [?|[[_ Hroot]|?]]; [by left| |by right].
    exfalso. apply Hroot. destruct (complex_root_known t0 Hc) as [c Hk].
    destruct (TYPE_CONSTRUCTOR_MAP_getitem (type_root t0))
      as [(c' & _ & Hin)|[Hk' _]]; [done|congruence].
  - intros Hrun.
    refine (Hnode args _ (type_root (TUnionType args)) _ _ _ Hrun).
    eapply Forall_impl; [exact IH|]. cbn beta. intros t0 Ht Hc n n' e' Hr.
    destruct (Ht _ _ _ Hr) as [?|[[_ Hroot]|?]]; [by left| |by right].
    exfalso. apply Hroot. destruct (complex_root_known t0 Hc) as [c Hk].
    destruct (TYPE_CONSTRUCTOR_MAP_getitem (type_root t0))
      as [(c' & _ & Hin)|[Hk' _]]; [done|congruence].
Qed.

(** C2, as the code has it: when the rebuilder returns on a composite type
    expression (list, set or union type), its result is the subscription of
    the corresponding constructor with the translated arguments in their
    order, where a struct class is translated to its name, [NoneType] to
    [None], a composite argument to what the rebuilder returns for it, and
    any other argument to itself. For a list and a set the result is the
    constructor applied to that list; for a union type it is what
    [typing.Union] returns on it. *)
Theorem get_complex_type_rebuilds (lib : Collaborators) (self : Plugin)
    (type_ : pytype) (parent_name : string)
    (parent_nested_structs nested' : list StructClass)
    (c : constructor) (args : list pytype) (p : ptype) :
  composite_constructor type_ = Some c ->
  __args__ type_ = Some args ->
  get_complex_type lib self type_ parent_name parent_nested_structs
  = (nested', Ok p) ->
  exists type_args,
    Forall2 (translated_argument lib self parent_name) args type_args
    /\ subscript lib c type_args = Ok p
    /\ (c <> C_Union -> p = PApp c type_args)
    /\ (c = C_Union -> typing_Union lib type_args = Ok p).
Proof.
  intros Hc Ha Hrun.
  destruct (get_complex_type_Ok _ _ _ _ _ _ _ Hrun)
    as (args' & c' & type_args & Ha' & _ & Hk & Hsub & Htr).
  assert (c' = c) as ->.
  { destruct type_ as [| | |o ?|?| |]; try discriminate.
    - destruct o; try discriminate; cbn in Hc; vm_compute in Hk; congruence.
    - cbn in Hc. vm_compute in Hk. congruence. }
  simplify_eq. exists type_args. split; [done|]. split; [done|]. split.
  - intros Hne. destruct c; cbn in Hsub; by simplify_eq.
  - by intros ->.
Qed.

Lemma get_complex_type_rebuilds_witness :
  exists type_args,
    Forall2 (translated_argument python_libraries __init__ "Kennel")
      [TGeneric builtin_set [TUnionType [TStruct Pet; TStruct Owner]];
       TNoneType] type_args
    /\ python_Union type_args
       = Ok (PApp C_Union
               [PApp C_set [PApp C_Union [PRef "Pet"; PRef "Owner"]]; PNone]).
Proof.
  destruct (get_complex_type_rebuilds python_libraries __init__
              optional_set_of_union "Kennel" [] [Pet; Owner] C_Union
              [TGeneric builtin_set [TUnionType [TStruct Pet; TStruct Owner]];
               TNoneType]
              (PApp C_Union
                 [PApp C_set [PApp C_Union [PRef "Pet"; PRef "Owner"]]; PNone])
              eq_refl eq_refl ltac:(vm_compute; reflexivity))
    as (type_args & Htr & _ & _ & Hu).
  exists type_args. split; [exact Htr|exact (Hu eq_refl)].
Defined.

(** Counterexamples to the statement of C2. [list[typing.List]] is a list
    composite on which the rebuilder returns nothing: the argument
    [typing.List] is complex and has no [__args__]. [Pet | Pet] with two
    struct classes of one name is a union type for which the rebuilder
    returns the name alone, not a union of two arguments. *)
Lemma get_complex_type_rebuilds_counterexample :
  (composite_constructor (TGeneric builtin_list [typing_List]) = Some C_list
   /\ forall lib,
        get_complex_type lib __init__ (TGeneric builtin_list [typing_List])
          "Owner" []
        = ([], Raise AttributeError))
  /\ (composite_constructor (TUnionType [TStruct Pet; TStruct Pet'])
      = Some C_Union
      /\ Pet <> Pet'
      /\ get_complex_type python_libraries __init__
           (TUnionType [TStruct Pet; TStruct Pet']) "Owner" []
         = ([Pet; Pet'], Ok (PRef "Pet"))
      /\ PRef "Pet" <> PApp C_Union [PRef "Pet"; PRef "Pet"]).
Proof.
  split; [split; [reflexivity|intros lib; reflexivity]|].
  split; [reflexivity|]. split; [discriminate|].
  split; [vm_compute; reflexivity|discriminate].
Qed.

(** C8, as the code has it: [TYPE_CONSTRUCTOR_MAP] knows [dict], [list],
    [set] and [UnionType]. On a parametrised type whose root is none of
    these four the rebuilder raises: [KeyError] once its arguments have been
    walked, or the exception that the rebuilder raised on a complex argument
    during the walk. It raises [KeyError] when no argument is complex. *)
Theorem get_complex_type_unknown_root (lib : Collaborators) (self : Plugin)
    (type_ : pytype) (parent_name : string)
    (parent_nested_structs : list StructClass) (args : list pytype) :
  __args__ type_ = Some args ->
  type_root type_ ∉ [builtin_dict; builtin_list; builtin_set; UnionType] ->
  exists e,
    (get_complex_type lib self type_ parent_name parent_nested_structs).2
    = Raise e
    /\ (e = KeyError
        \/ exists t nested nested',
             t ∈ args /\ is_complex_type t = true
             /\ get_complex_type lib self t parent_name nested
                = (nested', Raise e))
    /\ ((forall t, t ∈ args -> is_complex_type t = false) -> e = KeyError).
Proof.
  intros Ha Hr.
  assert (dict_getitem TYPE_CONSTRUCTOR_MAP (type_root type_) = Raise KeyError)
    as Hk.
  { rewrite !not_elem_of_cons in Hr. destruct Hr as (? & ? & ? & ? & _).
    cbn. by rewrite !decide_False. }
  assert (forall args0,
    exists e,
      (match get_complex_type_loop
               (fun t nested => get_complex_type lib self t parent_name nested)
               self parent_name args0 [] parent_nested_structs with
       | (nested1, Ok type_args) =>
           (nested1,
            match dict_getitem TYPE_CONSTRUCTOR_MAP (type_root type_) with
            | Ok c => subscript lib c type_args
            | Raise e => Raise e
            end)
       | (nested1, Raise e) => (nested1, Raise e)
       end).2 = Raise e
      /\ (e = KeyError
          \/ exists t nested nested',
               t ∈ args0 /\ is_complex_type t = true
               /\ get_complex_type lib self t parent_name nested
                  = (nested', Raise e))
      /\ ((forall t, t ∈ args0 -> is_complex_type t = false) -> e = KeyError))
    as Hnode.
  { intros args0.
    destruct (get_complex_type_loop _ _ _ _ _ _) as [nested1 [type_args|e]]
      eqn:Hloop; cbn [snd].
    - rewrite Hk. exists KeyError. split; [done|]. split; [by left|done].
    - exists e. split; [done|]. split.
      + right.
        apply get_complex_type_loop_Raise in Hloop as (t & n1 & ? & ? & ?).
        by exists t, n1, nested1.
      + intros Hplain.
        destruct (get_complex_type_loop_plain
                    (fun t nested =>
                       get_complex_type lib self t parent_name nested)
                    self parent_name args0 Hplain [] parent_nested_structs)
          as (n' & out & Hok).
        congruence. }
  destruct type_ as [| | |o args0|args0| |]; try discriminate;
    cbn in Ha; simplify_eq; cbn [get_complex_type]; apply Hnode.
Qed.

Lemma get_complex_type_unknown_root_witness :
  (get_complex_type python_libraries __init__
     (TGeneric (other_class "tuple") [TStruct Pet; TValue PyEllipsis])
     "Kennel" []).2 = Raise KeyError.
Proof.
  destruct (get_complex_type_unknown_root python_libraries __init__
           (TGeneric (other_class "tuple") [TStruct Pet; TValue PyEllipsis])
           "Kennel" [] [TStruct Pet; TValue PyEllipsis])
    as (e & He & _ & Hplain).
  - reflexivity.
  - apply (bool_decide_unpack _). by vm_compute.
  - rewrite He, Hplain; [reflexivity|].
    intros t [->|[->|[]%elem_of_nil]%elem_of_cons]%elem_of_cons; reflexivity.
Defined.

(** Counterexample to the statement of C8 with list, set and union type as
    the known constructors: the constructor of [dict[str, int]] is none of
    them, and the rebuilder returns [dict[str, int]] instead of raising. *)
Lemma get_complex_type_dict_counterexample :
  __args__ dict_str_int = Some [TClass "str"; TClass "int"]
  /\ (type_root dict_str_int ∉ [builtin_list; builtin_set; UnionType])
  /\ forall lib,
       get_complex_type lib __init__ dict_str_int "Owner" []
       = ([], Ok (PApp C_dict [PKeep (TClass "str"); PKeep (TClass "int")]))
       /\ (get_complex_type lib __init__ dict_str_int "Owner" []).2
          <> Raise KeyError.
Proof.
  split; [reflexivity|].
  split; [apply (bool_decide_unpack _); by vm_compute|].
  intros lib. split; [reflexivity|]. discriminate.
Qed.
(** ** Field metadata *)

(** C7: the keyword [default] is passed exactly when the descriptor's
    default is not the sentinel, and then with the descriptor's value; the
    same holds for [default_factory]. The sentinel differs from [None] and
    from [0], so a default of [0] is passed on as [0]. *)
Theorem generate_field_info_defaults (field : MFieldInfo.t) :
  let kwargs := field_info_kwargs (generate_field_info field) in
  (forall v, kwargs !! "default" = Some v <->
             MFieldInfo.default field = v /\ v <> NODEFAULT)
  /\ (forall v, kwargs !! "default_factory" = Some v <->
                MFieldInfo.default_factory field = v /\ v <> NODEFAULT)
  /\ NODEFAULT <> PyNone /\ NODEFAULT <> PyInt 0
  /\ (MFieldInfo.default field = PyInt 0 -> kwargs !! "default" = Some (PyInt 0))
  /\ (MFieldInfo.default field = PyNone -> kwargs !! "default" = Some PyNone)
  /\ (MFieldInfo.default field = NODEFAULT -> kwargs !! "default" = None).
Proof.
  assert (forall v, field_info_kwargs (generate_field_info field) !! "default"
                    = Some v <->
                    MFieldInfo.default field = v /\ v <> NODEFAULT) as Hd.
  { intros v. unfold generate_field_info. cbn [field_info_kwargs].
    destruct (MFieldInfo.encode_name field);
      repeat case_bool_decide; simplify_map_eq; naive_solver. }
  cbn zeta. split; [exact Hd|]. split.
  { intros v. unfold generate_field_info. cbn [field_info_kwargs].
    destruct (MFieldInfo.encode_name field);
      repeat case_bool_decide; simplify_map_eq; naive_solver. }
  split; [done|]. split; [done|]. repeat split.
  - intros H0. by apply Hd.
  - intros H0. by apply Hd.
  - intros H0. apply eq_None_not_Some. intros [v Hv].
    apply Hd in Hv. naive_solver.
Qed.

Lemma generate_field_info_defaults_witness :
  field_info_kwargs
    (generate_field_info
       (MFieldInfo.mk "age" (TClass "int") (PyInt 0) NODEFAULT (Some "age")))
  !! "default" = Some (PyInt 0)
  /\ field_info_kwargs (generate_field_info (required "name" (TClass "str")))
     !! "default" = None.
Proof.
  split.
  - destruct (generate_field_info_defaults
                (MFieldInfo.mk "age" (TClass "int") (PyInt 0) NODEFAULT
                   (Some "age"))) as (_ & _ & _ & _ & H & _).
    apply H. reflexivity.
  - destruct (generate_field_info_defaults (required "name" (TClass "str")))
      as (_ & _ & _ & _ & _ & _ & H).
    apply H. reflexivity.
Defined.

(** ** Field metadata: the alias *)

(** X10: the keyword [alias] is passed exactly when the descriptor has an
    [encode_name], with that name as its value, and no keyword other than
    [alias], [default] and [default_factory] is ever passed; a descriptor
    without default and without factory gives the alias alone. *)
Theorem generate_field_info_alias (field : MFieldInfo.t) :
  let kwargs := field_info_kwargs (generate_field_info field) in
  kwargs !! "alias" = PyStr <$> MFieldInfo.encode_name field
  /\ (forall key, key ∈ dom kwargs ->
        key ∈ ["alias"; "default"; "default_factory"])
  /\ (MFieldInfo.default field = NODEFAULT ->
      MFieldInfo.default_factory field = NODEFAULT ->
      kwargs = match MFieldInfo.encode_name field with
               | Some encode_name => {["alias" := PyStr encode_name]}
               | None => ∅
               end).
Proof.
  cbn zeta. unfold generate_field_info. cbn [field_info_kwargs].
  split_and!.
  - destruct (MFieldInfo.encode_name field);
      repeat case_bool_decide; by simplify_map_eq.
  - intros key.
    destruct (MFieldInfo.encode_name field); repeat case_bool_decide;
      rewrite ?dom_insert_L, ?dom_empty_L, !elem_of_cons; set_solver.
  - intros -> ->. rewrite !bool_decide_eq_false_2 by (by intros ?).
    by destruct (MFieldInfo.encode_name field).
Qed.

Lemma generate_field_info_alias_witness :
  field_info_kwargs (generate_field_info (required "name" (TClass "str")))
  = {["alias" := PyStr "name"]}.
Proof.
  destruct (generate_field_info_alias (required "name" (TClass "str")))
    as (_ & _ & H).
  exact (H eq_refl eq_refl).
Defined.


(** ** The class generator *)

(** *** [update_forward_refs] *)

Section WalkList.

Context {A : Type}.
Variable step : A -> bool -> A * bool.
Hypothesis step_stopped : forall a, step a false = (a, false).

Lemma walk_list_stopped l : walk_list step l false = (l, false).
Proof.
  induction l as [|a l IH]; cbn [walk_list]; [done|].
  rewrite step_stopped. cbn [fst snd]. by rewrite IH.
Qed.

(** A walk that goes to the end has made every step. *)
Lemma walk_list_complete l :
  forall l', walk_list step l true = (l', true) ->
    Forall2 (fun a a' => step a true = (a', true)) l l'.
Proof.
  induction l as [|a l IH]; cbn [walk_list]; intros l' E.
  - injection E as <-. constructor.
  - destruct (step a true) as [a' [|]] eqn:Ha; cbn [fst snd] in E.
    + destruct (walk_list step l true) as [l1 b1] eqn:Hl; cbn [fst snd] in E.
      injection E as <- ->. constructor; [done|]. by apply IH.
    + rewrite walk_list_stopped in E. discriminate.
Qed.

Lemma walk_list_elem_of l a running :
  a ∈ l ->
  exists b, (step a b).1 ∈ (walk_list step l running).1
    /\ ((walk_list step l running).2 = true -> b = true).
Proof.
  revert running. induction l as [|a0 l IH]; intros running Ha;
    [by apply elem_of_nil in Ha|].
  cbn [walk_list fst snd]. apply elem_of_cons in Ha as [->|Ha].
  - exists running. split; [by left|]. intros Hend.
    destruct running; [done|].
    rewrite step_stopped in Hend. cbn [snd] in Hend.
    by rewrite walk_list_stopped in Hend.
  - destruct (IH (step a0 running).2 Ha) as (b & Hb & Hend).
    exists b. split; [by right|done].
Qed.

Lemma walk_list_map {B} (g : A -> B) l running :
  (forall a b, g (step a b).1 = g a) ->
  map g (walk_list step l running).1 = map g l.
Proof.
  intros Hg. revert running.
  induction l as [|a l IH]; intros running; cbn [walk_list fst map]; [done|].
  by rewrite Hg, IH.
Qed.

End WalkList.

(** Walking with [g] over what a walk with [f] left is walking with [g]
    over the original, when [g] goes at least as far as [f]. *)
Lemma walk_list_mono {A} (f g : A -> bool -> A * bool) l :
  Forall (fun a => forall b b', (b = true -> b' = true) ->
            g (f a b).1 b' = g a b'
            /\ ((f a b).2 = true -> (g a b').2 = true)) l ->
  forall b b', (b = true -> b' = true) ->
    walk_list g (walk_list f l b).1 b' = walk_list g l b'
    /\ ((walk_list f l b).2 = true -> (walk_list g l b').2 = true).
Proof.
  induction 1 as [|a l Ha _ IH]; intros b b' Hb; cbn [walk_list fst snd].
  - done.
  - destruct (Ha b b' Hb) as [E1 H1]. rewrite E1.
    destruct (IH (f a b).2 (g a b').2 H1) as [E2 H2]. by rewrite E2.
Qed.

Lemma resolve_stopped localns p : resolve localns p false = (p, false).
Proof. by destruct p. Qed.

Lemma resolve_mono (localns localns' : gmap string loc) p :
  localns ⊆ localns' ->
  forall b b', (b = true -> b' = true) ->
    resolve localns' (resolve localns p b).1 b' = resolve localns' p b'
    /\ ((resolve localns p b).2 = true -> (resolve localns' p b').2 = true).
Proof.
  intros Hsub.
  induction p as [name| |c type_args IH| |] using ptype_nested_ind;
    intros [|] b' Hb; rewrite ?resolve_stopped; cbn [fst snd];
    try (split; [done|discriminate]);
    rewrite (Hb eq_refl); cbn [resolve fst snd]; try done.
  - destruct (localns !! name) as [l|] eqn:E; cbn [fst snd resolve].
    + by rewrite (lookup_weaken _ _ _ _ E Hsub).
    + split; [done|discriminate].
  - destruct (walk_list_mono (resolve localns) (resolve localns') type_args IH
                true true) as [E1 H1]; [done|].
    by rewrite E1.
Qed.

Lemma resolve_field_stopped localns d : resolve_field localns d false = (d, false).
Proof.
  destruct d as [n [p info]]. unfold resolve_field. cbn [fst snd].
  by rewrite resolve_stopped.
Qed.

Lemma resolve_fields_mono (localns localns' : gmap string loc) fs :
  localns ⊆ localns' ->
  resolve_fields localns' (resolve_fields localns fs).1
  = resolve_fields localns' fs
  /\ ((resolve_fields localns fs).2 = true ->
      (resolve_fields localns' fs).2 = true).
Proof.
  intros Hsub. unfold resolve_fields. apply walk_list_mono; [|done].
  apply Forall_forall. intros [n [p info]] _ b b' Hb.
  unfold resolve_field. cbn [fst snd].
  destruct (resolve_mono localns localns' p Hsub b b' Hb) as [E H].
  by rewrite E.
Qed.

Lemma update_forward_refs_mono (localns localns' : gmap string loc) model :
  localns ⊆ localns' ->
  update_forward_refs localns' (update_forward_refs localns model)
  = update_forward_refs localns' model.
Proof.
  intros Hsub. unfold update_forward_refs.
  cbn [model_name model_config model_fields].
  by rewrite (proj1 (resolve_fields_mono _ _ _ Hsub)).
Qed.

(** A second call of [update_forward_refs] with the same namespace changes
    nothing, and it returns when the first one did. *)
Lemma update_forward_refs_idemp localns model :
  update_forward_refs localns (update_forward_refs localns model)
  = update_forward_refs localns model.
Proof. by apply update_forward_refs_mono. Qed.

Lemma update_forward_refs_outcome_idemp localns model :
  update_forward_refs_outcome localns model = Ok tt ->
  update_forward_refs_outcome localns (update_forward_refs localns model)
  = Ok tt.
Proof.
  unfold update_forward_refs_outcome, update_forward_refs.
  cbn [model_fields].
  destruct (resolve_fields_mono localns localns (model_fields model))
    as [E H]; [done|].
  rewrite E. by destruct (resolve_fields localns (model_fields model)).2.
Qed.

(** A walk that went to the end has left no string reference. *)
Lemma resolve_complete (localns : gmap string loc) p :
  forall p', resolve localns p true = (p', true) -> unresolved p' = [].
Proof.
  induction p as [name| |c type_args IH| |] using ptype_nested_ind;
    intros p'; cbn [resolve]; try (by intros [= <-]).
  - destruct (localns !! name); by intros [= <-].
  - destruct (walk_list (resolve localns) type_args true) as [r b] eqn:Hw.
    cbn [fst snd]. intros [= <- ->]. cbn [unresolved].
    apply walk_list_complete in Hw; [|apply resolve_stopped].
    induction Hw as [|a a' l l' Ha _ IHl]; [done|].
    apply Forall_cons in IH as [IHa IH]. cbn [flat_map].
    by rewrite (IHa _ Ha), IHl.
Qed.

Lemma resolve_fields_complete (localns : gmap string loc) fs fs' :
  resolve_fields localns fs = (fs', true) ->
  forall definition, definition ∈ fs' -> unresolved definition.2.1 = [].
Proof.
  unfold resolve_fields. intros Hw.
  apply walk_list_complete in Hw; [|apply resolve_field_stopped].
  intros definition Hd.
  apply list_elem_of_lookup in Hd as [i Hi].
  destruct (Forall2_lookup_r _ _ _ _ _ Hw Hi) as (d & _ & Hstep).
  unfold resolve_field in Hstep.
  destruct (resolve localns d.2.1 true) as [p' b] eqn:Hr.
  cbn [fst snd] in Hstep. injection Hstep as <- ->. cbn [fst snd].
  by eapply resolve_complete.
Qed.

Lemma update_forward_refs_skeleton localns model model' :
  update_forward_refs localns model' = update_forward_refs localns model ->
  model_name model' = model_name model
  /\ model_config model' = model_config model
  /\ map fst (model_fields model') = map fst (model_fields model)
  /\ map (fun d => d.2.2) (model_fields model')
     = map (fun d => d.2.2) (model_fields model).
Proof.
  intros E.
  assert (forall m, map fst (model_fields (update_forward_refs localns m))
                    = map fst (model_fields m)) as Hfst.
  { intros m. cbn [update_forward_refs model_fields]. unfold resolve_fields.
    by apply walk_list_map. }
  assert (forall m,
            map (fun d : string * (ptype * PFieldInfo) => d.2.2)
              (model_fields (update_forward_refs localns m))
            = map (fun d => d.2.2) (model_fields m)) as Hsnd.
  { intros m. cbn [update_forward_refs model_fields]. unfold resolve_fields.
    by apply walk_list_map. }
  split_and!.
  - by apply (f_equal model_name) in E.
  - by apply (f_equal model_config) in E.
  - by rewrite <- (Hfst model'), E, Hfst.
  - by rewrite <- (Hsnd model'), E, Hsnd.
Qed.

(** *** The scan of the fields *)

Lemma unsupported_field_type t :
  as_struct t = None -> is_complex_type t = false -> discovered t = [].
Proof.
  destruct t as [| | |o ?|?| |]; try done. by destruct o.
Qed.

(** A scan that goes to the end has made one definition per field, and has
    appended every discovered struct class that passes the test of
    [handle_nested_stuct]. *)
Lemma scan_fields_Ok lib self struct_name fs :
  forall field_definitions nested_structs definitions nested,
    scan_fields lib self struct_name fs field_definitions nested_structs
    = Ok (definitions, nested) ->
    nested = nested_structs
             ++ filter (fun s => to_discover self struct_name s = true)
                  (flat_map (fun field => discovered (MFieldInfo.type field)) fs)
    /\ exists items,
         Forall2 (field_translated lib self struct_name) fs items
         /\ definitions
            = foldl (fun d item => dict_setitem d item.1 item.2)
                field_definitions items.
Proof.
  induction fs as [|field fs IH];
    intros field_definitions nested_structs definitions nested;
    cbn [scan_fields flat_map].
  - intros [= <- <-]. rewrite app_nil_r. split; [done|].
    exists []. split; [constructor|done].
  - rewrite filter_app, app_assoc.
    destruct (as_struct (MFieldInfo.type field)) as [cls|] eqn:Hs.
    + apply as_struct_Some in Hs.
      intros [-> (items & Hitems & ->)]%IH.
      rewrite Hs, handle_nested_stuct_filter. split; [done|].
      exists ((MFieldInfo.name field,
               (PRef (__name__ cls), generate_field_info field)) :: items).
      split; [|done]. constructor; [|done].
      split_and!; cbn [fst snd]; try done.
      * intros cls'. rewrite Hs. by intros [= ->].
      * by rewrite Hs.
      * by rewrite Hs.
    + destruct (is_complex_type (MFieldInfo.type field)) eqn:Hc.
      * destruct (get_complex_type _ _ _ _ _) as [nested1 [p|e]] eqn:Hg;
          [|discriminate].
        intros [-> (items & Hitems & ->)]%IH.
        destruct (get_complex_type_Ok _ _ _ _ _ _ _ Hg)
          as (args & _ & _ & Ha & -> & _).
        rewrite (complex_discovered _ _ Hc Ha). split; [done|].
        exists ((MFieldInfo.name field, (p, generate_field_info field))
                  :: items).
        split; [|done]. constructor; [|done].
        split_and!; cbn [fst snd]; try done.
        -- intros cls E. by rewrite E in Hs.
        -- intros _. by eexists _, _.
        -- intros _ E. by rewrite E in Hc.
      * intros [-> (items & Hitems & ->)]%IH.
        rewrite (unsupported_field_type _ Hs Hc). cbn [filter].
        rewrite app_nil_r. split; [done|].
        exists ((MFieldInfo.name field,
                 (PKeep (MFieldInfo.type field), generate_field_info field))
                  :: items).
        split; [|done]. constructor; [|done].
        split_and!; cbn [fst snd]; try done.
        -- intros cls E. by rewrite E in Hs.
        -- intros E. by rewrite E in Hc.
Qed.

(** A scan raises what the rebuilder raised on a complex field. *)
Lemma scan_fields_Raise lib self struct_name fs :
  forall field_definitions nested_structs e,
    scan_fields lib self struct_name fs field_definitions nested_structs
    = Raise e ->
    exists field nested nested',
      field ∈ fs
      /\ is_complex_type (MFieldInfo.type field) = true
      /\ get_complex_type lib self (MFieldInfo.type field) struct_name nested
         = (nested', Raise e).
Proof.
  induction fs as [|field fs IH]; intros field_definitions nested_structs e;
    cbn [scan_fields]; [discriminate|].
  assert (forall defs ns,
            scan_fields lib self struct_name fs defs ns = Raise e ->
            exists field0 nested nested',
              field0 ∈ field :: fs
              /\ is_complex_type (MFieldInfo.type field0) = true
              /\ get_complex_type lib self (MFieldInfo.type field0) struct_name
                   nested = (nested', Raise e)) as Hrest.
  { intros defs ns (f & n & n' & Hf & ? & ?)%IH.
    exists f, n, n'. split; [by right|done]. }
  destruct (as_struct (MFieldInfo.type field)); [apply Hrest|].
  destruct (is_complex_type (MFieldInfo.type field)) eqn:Hc; [|apply Hrest].
  destruct (get_complex_type _ _ _ _ _) as [nested1 [p|e']] eqn:Hg;
    [apply Hrest|].
  intros [= ->]. exists field, nested_structs, nested1.
  split; [by left|done].
Qed.

(** *** One conversion *)

Lemma to_pydantic_model_class_unfold fields lib fuel model_class self :
  to_pydantic_model_class fields lib (S fuel) model_class self
  = let struct_name := __name__ model_class in
    if bool_decide (struct_name ∉ dom (_struct_namespace_map self)) then
      match scan_fields lib self struct_name (fields model_class) [] [] with
      | Raise e => Some (Raise e, self)
      | Ok scanned =>
          match pydantic_create_model lib struct_name the_config scanned.1 with
          | Raise e => Some (Raise e, self)
          | Ok fs =>
              match for_each scanned.2
                      (fun nested_struct =>
                         to_pydantic_model_class fields lib fuel nested_struct;;
                         mret tt)
                      (registered self struct_name fs) with
              | None => None
              | Some (Ok _, self') => return_model self' struct_name
              | Some (Raise e, self') => Some (Raise e, self')
              end
          end
      end
    else return_model self struct_name.
Proof.
  cbn [to_pydantic_model_class]. cbn zeta.
  unfold mbind at 1. unfold M_bind at 1. unfold get_self at 1.
  assert (forall s, (model ← namespace_getitem (__name__ model_class);
                     model_update_forward_refs model;; mret model) s
                    = return_model s (__name__ model_class)) as Hret.
  { intros s. unfold return_model, mbind, M_bind, namespace_getitem,
      model_update_forward_refs, mret, M_ret, resolved, resolution_outcome.
    destruct (_struct_namespace_map s !! __name__ model_class) as [l|];
      [|done].
    by destruct (store s !! l) as [class|];
      [destruct (update_forward_refs_outcome _ class) as [[]|]|]. }
  destruct (bool_decide (__name__ model_class ∉ dom (_struct_namespace_map self))).
  - unfold mbind at 1. unfold M_bind at 1.
    unfold mbind at 1. unfold M_bind at 1. unfold lift.
    destruct (scan_fields _ _ _ _ _ _) as [scanned|e]; [|done].
    unfold mbind at 1. unfold M_bind at 1. unfold create_model.
    destruct (pydantic_create_model _ _ _ _) as [fs|e]; [|done].
    unfold mbind at 1. unfold M_bind at 1. unfold namespace_setitem.
    cbn [fst snd _struct_namespace_map store].
    fold (registered self (__name__ model_class) fs).
    destruct (for_each _ _ _) as [[[[]|e] s']|]; [apply Hret|done|done].
  - unfold mbind at 1. unfold M_bind at 1. unfold mret at 1, M_ret at 1.
    apply Hret.
Qed.

(** What a conversion does when the name is not cached. *)
Lemma to_pydantic_model_class_miss fields lib fuel model_class self r self' :
  __name__ model_class ∉ dom (_struct_namespace_map self) ->
  to_pydantic_model_class fields lib (S fuel) model_class self
  = Some (r, self') ->
  (exists e,
     scan_fields lib self (__name__ model_class) (fields model_class) [] []
     = Raise e /\ r = Raise e /\ self' = self)
  \/ exists definitions nested,
       scan_fields lib self (__name__ model_class) (fields model_class) [] []
       = Ok (definitions, nested)
       /\ ((exists e,
              pydantic_create_model lib (__name__ model_class) the_config
                definitions = Raise e /\ r = Raise e /\ self' = self)
           \/ exists fs r1 self2,
                pydantic_create_model lib (__name__ model_class) the_config
                  definitions = Ok fs
                /\ for_each nested
                     (fun nested_struct =>
                        to_pydantic_model_class fields lib fuel nested_struct;;
                        mret tt)
                     (registered self (__name__ model_class) fs)
                   = Some (r1, self2)
                /\ match r1 with
                   | Ok _ => return_model self2 (__name__ model_class)
                             = Some (r, self')
                   | Raise e => r = Raise e /\ self' = self2
                   end).
Proof.
  intros Hdom. rewrite to_pydantic_model_class_unfold. cbn zeta.
  rewrite bool_decide_eq_true_2 by done.
  destruct (scan_fields _ _ _ _ _ _) as [[definitions nested]|e] eqn:Hscan.
  2:{ intros [= <- <-]. left. by exists e. }
  cbn [fst snd].
  destruct (pydantic_create_model _ _ _ _) as [fs|e] eqn:Hcreate.
  2:{ intros [= <- <-]. right. exists definitions, nested. split; [done|].
      left. by exists e. }
  destruct (for_each _ _ _) as [[r1 self2]|] eqn:Hloop; [|done].
  intros Hret. right. exists definitions, nested. split; [done|].
  right. exists fs, r1, self2. split; [done|]. split; [done|].
  destruct r1 as [[]|e]; [done|]. by injection Hret as <- <-.
Qed.

Lemma to_pydantic_model_class_hit fields lib fuel model_class self :
  __name__ model_class ∈ dom (_struct_namespace_map self) ->
  to_pydantic_model_class fields lib (S fuel) model_class self
  = return_model self (__name__ model_class).
Proof.
  intros Hdom. rewrite to_pydantic_model_class_unfold. cbn zeta.
  by rewrite bool_decide_eq_false_2 by (by intros ?).
Qed.

Lemma nested_call_inv fields lib fuel nested_struct (self : Plugin) r self' :
  (to_pydantic_model_class fields lib fuel nested_struct;; mret tt) self
  = Some (r, self') ->
  exists r0, to_pydantic_model_class fields lib fuel nested_struct self
             = Some (r0, self')
    /\ r = match r0 with Ok _ => Ok tt | Raise e => Raise e end.
Proof.
  unfold mbind, M_bind, mret, M_ret.
  destruct (to_pydantic_model_class _ _ _ _ _) as [[[l|e] s]|]; intros H;
    simplify_eq; eauto.
Qed.

Lemma for_each_cons_inv {A} (body : A -> M unit) a l (self : Plugin) r self' :
  for_each (a :: l) body self = Some (r, self') ->
  exists r1 self1, body a self = Some (r1, self1)
    /\ match r1 with
       | Ok _ => for_each l body self1 = Some (r, self')
       | Raise e => r = Raise e /\ self' = self1
       end.
Proof.
  cbn [for_each]. unfold mbind, M_bind.
  destruct (body a self) as [[[[]|e] s]|]; intros H; simplify_eq;
    eexists _, _; (split; [reflexivity|]); cbn; eauto.
Qed.

Lemma for_each_rel {A} (R : Plugin -> Plugin -> Prop)
    `{!Reflexive R, !Transitive R} (body : A -> M unit) l :
  (forall a self r self', a ∈ l -> body a self = Some (r, self') -> R self self') ->
  forall self r self', for_each l body self = Some (r, self') -> R self self'.
Proof.
  induction l as [|a l IH]; intros Hbody self r self' Hrun.
  - cbn in Hrun. unfold mret, M_ret in Hrun. by simplify_eq.
  - apply for_each_cons_inv in Hrun as (r1 & self1 & Ha & Hrest).
    assert (R self self1) by (eapply Hbody; [left|done]).
    destruct r1 as [[]|e].
    + etrans; [done|]. eapply IH; [|done].
      intros. eapply Hbody; [by right|done].
    + by destruct Hrest as [_ ->].
Qed.

Lemma resolution_outcome_cases self l :
  resolution_outcome self l = Ok tt
  \/ resolution_outcome self l = Raise NameError.
Proof.
  unfold resolution_outcome, update_forward_refs_outcome.
  destruct (store self !! l) as [class|]; [|by left].
  destruct (resolve_fields _ _).2; [by left|by right].
Qed.

Lemma return_model_inv self struct_name r self' :
  return_model self struct_name = Some (r, self') ->
  (exists l, _struct_namespace_map self !! struct_name = Some l
             /\ self' = resolved self l
             /\ (r = Ok l /\ resolution_outcome self l = Ok tt
                 \/ r = Raise NameError
                    /\ resolution_outcome self l = Raise NameError))
  \/ (_struct_namespace_map self !! struct_name = None
      /\ r = Raise KeyError /\ self' = self).
Proof.
  unfold return_model.
  destruct (_struct_namespace_map self !! struct_name) as [l|] eqn:E.
  - intros [= <- <-]. left. exists l. split; [done|]. split; [done|].
    destruct (resolution_outcome_cases self l) as [-> | ->];
      [by left|by right].
  - intros [= <- <-]. by right.
Qed.

Lemma return_model_steps self struct_name r self' :
  return_model self struct_name = Some (r, self') ->
  rtc plugin_step self self'.
Proof.
  intros [(l & Hl & -> & _)|(_ & _ & ->)]%return_model_inv; [|done].
  apply rtc_once. by eapply step_resolve.
Qed.

(** Every conversion is a sequence of registrations and resolutions,
    whatever its outcome. *)
Lemma to_pydantic_model_class_steps fields lib fuel :
  forall model_class self r self',
    to_pydantic_model_class fields lib fuel model_class self = Some (r, self') ->
    rtc plugin_step self self'.
Proof.
  induction fuel as [|fuel IH]; intros model_class self r self' Hrun;
    [discriminate|].
  destruct (decide (__name__ model_class ∈ dom (_struct_namespace_map self)))
    as [Hdom|Hdom].
  { rewrite to_pydantic_model_class_hit in Hrun by done.
    by eapply return_model_steps. }
  destruct (to_pydantic_model_class_miss _ _ _ _ _ _ _ Hdom Hrun)
    as [(e & _ & _ & ->)
       |(defs & nested & _ & [(e & _ & _ & ->)
                             |(fs & r1 & self2 & _ & Hloop & Hret)])];
    [done|done|].
  assert (rtc plugin_step self self2) as Hsteps.
  { etrans; [eapply rtc_once, step_register, Hdom|].
    eapply (for_each_rel (rtc plugin_step)); [|exact Hloop].
    intros a s r0 s' _ (r2 & Hr2 & _)%nested_call_inv. by eapply IH. }
  destruct r1 as [[]|e]; [|by destruct Hret as [_ ->]].
  etrans; [done|]. by eapply return_model_steps.
Qed.

Lemma nested_calls_steps fields lib fuel nested_structs self r self' :
  for_each nested_structs
    (fun nested_struct =>
       to_pydantic_model_class fields lib fuel nested_struct;; mret tt) self
  = Some (r, self') ->
  rtc plugin_step self self'.
Proof.
  apply (for_each_rel (rtc plugin_step)).
  intros a s r0 s' _ (r1 & Hr1 & _)%nested_call_inv.
  by eapply to_pydantic_model_class_steps.
Qed.

Lemma plugin_step_cache self self' :
  plugin_step self self' ->
  _struct_namespace_map self ⊆ _struct_namespace_map self'.
Proof.
  destruct 1 as [self name defs Hdom|self name l Hl]; cbn; [|done].
  apply insert_subseteq. by apply not_elem_of_dom.
Qed.

Lemma plugin_steps_cache self self' :
  rtc plugin_step self self' ->
  _struct_namespace_map self ⊆ _struct_namespace_map self'.
Proof.
  induction 1 as [|s1 s2 s3 H12 _ IH]; [done|].
  etrans; [by apply plugin_step_cache|done].
Qed.

Lemma plugin_steps_dom self self' :
  rtc plugin_step self self' ->
  dom (_struct_namespace_map self) ⊆ dom (_struct_namespace_map self').
Proof. intros H. by apply subseteq_dom, plugin_steps_cache. Qed.

Lemma plugin_step_one_class self self' :
  plugin_step self self' -> one_class_per_name self -> one_class_per_name self'.
Proof.
  destruct 1 as [self name defs Hdom|self name l Hl]; intros [Hb Hs].
  - split; unfold registered; cbn [store _struct_namespace_map].
    + intros name' l' [[<- <-]|[Hne Hl']]%lookup_insert_Some.
      * eexists. split; [by apply list_lookup_middle|done].
      * destruct (Hb _ _ Hl') as (m & Hm & Hn). exists m.
        split; [|done]. by apply lookup_app_l_Some.
    + rewrite map_size_insert_None by (by apply not_elem_of_dom).
      rewrite length_app. cbn. lia.
  - split; unfold resolved; cbn [store _struct_namespace_map].
    + intros name' l' Hl'. destruct (Hb _ _ Hl') as (m & Hm & Hn).
      destruct (decide (l = l')) as [->|Hne].
      * eexists. rewrite list_lookup_alter_eq, Hm. cbn. done.
      * exists m. by rewrite list_lookup_alter_ne.
    + by rewrite length_alter.
Qed.

Lemma plugin_steps_one_class self self' :
  rtc plugin_step self self' -> one_class_per_name self ->
  one_class_per_name self'.
Proof. induction 1; eauto using plugin_step_one_class. Qed.

Lemma one_class_per_name_init : one_class_per_name __init__.
Proof. split; [intros name l Hl; cbn in Hl; by simplify_map_eq|done]. Qed.

(** A conversion that returns a class returns the class cached under the
    name of its argument, and ends by resolving that class to the end. *)
Lemma to_pydantic_model_class_returns fields lib fuel model_class self model
    self' :
  to_pydantic_model_class fields lib fuel model_class self
  = Some (Ok model, self') ->
  exists self0,
    _struct_namespace_map self0 !! __name__ model_class = Some model
    /\ resolution_outcome self0 model = Ok tt
    /\ self' = resolved self0 model
    /\ rtc plugin_step self self0.
Proof.
  destruct fuel as [|fuel]; [discriminate|]. intros Hrun.
  assert (forall s, rtc plugin_step self s ->
            return_model s (__name__ model_class) = Some (Ok model, self') ->
            exists self0,
              _struct_namespace_map self0 !! __name__ model_class = Some model
              /\ resolution_outcome self0 model = Ok tt
              /\ self' = resolved self0 model
              /\ rtc plugin_step self self0) as Hfin.
  { intros s Hs [(l & Hl & -> & [[? ?]|[? _]])|(_ & ? & _)]%return_model_inv;
      simplify_eq. by exists s. }
  destruct (decide (__name__ model_class ∈ dom (_struct_namespace_map self)))
    as [Hdom|Hdom].
  { rewrite to_pydantic_model_class_hit in Hrun by done.
    by apply (Hfin self). }
  destruct (to_pydantic_model_class_miss _ _ _ _ _ _ _ Hdom Hrun)
    as [(e & _ & ? & _)
       |(defs & nested & _ & [(e & _ & ? & _)
                             |(fs & r1 & self2 & _ & Hloop & Hret)])];
    [done|done|].
  destruct r1 as [[]|e]; [|by destruct Hret].
  apply (Hfin self2); [|done].
  etrans; [eapply rtc_once, step_register, Hdom|].
  by eapply nested_calls_steps.
Qed.

Lemma to_pydantic_model_class_cached fields lib fuel model_class self model
    self' :
  to_pydantic_model_class fields lib fuel model_class self
  = Some (Ok model, self') ->
  _struct_namespace_map self' !! __name__ model_class = Some model.
Proof.
  by intros (self0 & Hl & _ & -> & _)%to_pydantic_model_class_returns.
Qed.

Lemma resolved_idemp self l : resolved (resolved self l) l = resolved self l.
Proof.
  unfold resolved. cbn [store _struct_namespace_map]. f_equal.
  rewrite list_alter_alter_eq. apply list_alter_ext; [|done].
  intros model _. apply update_forward_refs_idemp.
Qed.

Lemma resolution_outcome_idemp self l :
  resolution_outcome self l = Ok tt ->
  resolution_outcome (resolved self l) l = Ok tt.
Proof.
  unfold resolution_outcome, resolved. cbn [store _struct_namespace_map].
  rewrite list_lookup_alter_eq.
  destruct (store self !! l) as [class|]; cbn [fmap option_fmap option_map];
    [|done].
  apply update_forward_refs_outcome_idemp.
Qed.

(** After a conversion that returned a class, a conversion of a struct
    class of the same name returns that class and changes nothing. *)
Lemma to_pydantic_model_class_again fields lib fuel model_class self model
    self1 :
  to_pydantic_model_class fields lib fuel model_class self
  = Some (Ok model, self1) ->
  return_model self1 (__name__ model_class) = Some (Ok model, self1).
Proof.
  intros (self0 & Hl & Hout & -> & _)%to_pydantic_model_class_returns.
  unfold return_model. cbn [resolved _struct_namespace_map]. rewrite Hl.
  fold (resolved self0 model).
  by rewrite resolution_outcome_idemp, resolved_idemp.
Qed.

Lemma perform_steps fields lib op self self' :
  perform fields lib op self = Some self' -> rtc plugin_step self self'.
Proof.
  destruct op; cbn [perform]; intros H; try (by simplify_eq).
  destruct (to_pydantic_model_class _ _ _ _ _) as [[r s]|] eqn:Hcall;
    [|discriminate].
  simplify_eq. by eapply to_pydantic_model_class_steps.
Qed.

Lemma run_calls_steps fields lib calls :
  forall self self', run_calls fields lib calls self = Some self' ->
                     rtc plugin_step self self'.
Proof.
  induction calls as [|op calls IH]; intros self self' Hrun;
    cbn [run_calls] in Hrun.
  - by simplify_eq.
  - destruct (perform fields lib op self) as [self1|] eqn:Hop; [|discriminate].
    etrans; [by eapply perform_steps|by apply IH].
Qed.

(** C4: a second forward conversion of the same struct class on the same
    plugin returns the very class object the first one returned: the same
    address, found in the cache. No class is created and the plugin is left
    as it was. *)
Theorem forward_conversion_idempotent
    (fields : StructClass -> list MFieldInfo.t) (lib : Collaborators)
    (fuel fuel' : nat)
    (model_class : StructClass) (self self1 : Plugin) (model : loc) :
  to_pydantic_model_class fields lib fuel model_class self
  = Some (Ok model, self1) ->
  _struct_namespace_map self1 !! __name__ model_class = Some model
  /\ to_pydantic_model_class fields lib (S fuel') model_class self1
     = Some (Ok model, self1).
Proof.
  intros Hrun.
  pose proof (to_pydantic_model_class_cached _ _ _ _ _ _ _ Hrun) as Hl.
  split; [done|]. rewrite to_pydantic_model_class_hit.
  - by eapply to_pydantic_model_class_again.
  - apply elem_of_dom. by eexists.
Qed.

Lemma forward_conversion_idempotent_witness :
  exists self1,
    to_pydantic_model_class example_fields python_libraries 3 Owner __init__
    = Some (Ok 0, self1)
    /\ _struct_namespace_map self1 !! "Owner" = Some 0
    /\ to_pydantic_model_class example_fields python_libraries 1 Owner self1
       = Some (Ok 0, self1).
Proof.
  eexists. split; [vm_compute; reflexivity|].
  apply (forward_conversion_idempotent example_fields python_libraries 3 0
           Owner __init__).
  vm_compute. reflexivity.
Defined.



(** C5: the cache is empty when the plugin is constructed, and every
    sequence of conversions changes the plugin only by registering a new
    class under a name that is not yet cached or by resolving a registered
    class in place. So an entry, once made, stays and keeps its class, and
    there is one class per cached name. *)
Theorem namespace_cache_only_grows
    (fields : StructClass -> list MFieldInfo.t) (lib : Collaborators)
    (calls : list operation) (self self' : Plugin) :
  run_calls fields lib calls self = Some self' ->
  _struct_namespace_map __init__ = ∅
  /\ one_class_per_name __init__
  /\ rtc plugin_step self self'
  /\ (forall name model,
        _struct_namespace_map self !! name = Some model ->
        _struct_namespace_map self' !! name = Some model)
  /\ (one_class_per_name self -> one_class_per_name self').
Proof.
  intros Hsteps%run_calls_steps.
  split; [done|]. split; [apply one_class_per_name_init|].
  split; [done|]. split.
  - intros name model Hl.
    by eapply lookup_weaken; [|apply plugin_steps_cache].
  - by apply plugin_steps_one_class.
Qed.

Lemma namespace_cache_only_grows_witness :
  exists self',
    run_calls example_fields python_libraries
      [call_to_pydantic_model_class 3 Owner;
       call_get_complex_type optional_set_of_union "Clinic" [];
       call_to_pydantic_model_class 3 Shelter;
       call_to_pydantic_model_class 2 Pet';
       call_to_pydantic_model_class 3 Kennel]
      __init__ = Some self'
    /\ one_class_per_name self'.
Proof.
  eexists. split; [vm_compute; reflexivity|].
  apply (namespace_cache_only_grows example_fields python_libraries
           [call_to_pydantic_model_class 3 Owner;
            call_get_complex_type optional_set_of_union "Clinic" [];
            call_to_pydantic_model_class 3 Shelter;
            call_to_pydantic_model_class 2 Pet';
            call_to_pydantic_model_class 3 Kennel] __init__ _
           ltac:(vm_compute; reflexivity)).
  apply one_class_per_name_init.
Defined.

(** *** Termination *)

Lemma for_each_ext_Some {A} (body1 body2 : A -> M unit) l :
  (forall a self res, a ∈ l -> body1 a self = Some res -> body2 a self = Some res) ->
  forall self res, for_each l body1 self = Some res ->
                   for_each l body2 self = Some res.
Proof.
  induction l as [|a l IH]; intros Hbody self res; [done|].
  cbn [for_each]. unfold mbind, M_bind.
  destruct (body1 a self) as [[r1 s1]|] eqn:H1; [|discriminate].
  rewrite (Hbody a self (r1, s1)) by (done || left).
  destruct r1 as [[]|e]; [|done].
  apply IH. intros. apply Hbody; [by right|done].
Qed.

(** More fuel does not change a result. *)
Lemma to_pydantic_model_class_fuel_mono fields lib fuel :
  forall model_class self res,
    to_pydantic_model_class fields lib fuel model_class self = Some res ->
    forall fuel', fuel <= fuel' ->
    to_pydantic_model_class fields lib fuel' model_class self = Some res.
Proof.
  induction fuel as [|fuel IH]; intros model_class self res Hrun fuel' Hle;
    [discriminate|].
  destruct fuel' as [|fuel']; [lia|].
  rewrite to_pydantic_model_class_unfold in *. cbn zeta in *.
  case_bool_decide; [|done].
  destruct (scan_fields _ _ _ _ _ _) as [scanned|e]; [|done].
  destruct (pydantic_create_model _ _ _ _) as [fs|e]; [|done].
  destruct (for_each _ _ _) as [res1|] eqn:Hloop; [|discriminate].
  erewrite for_each_ext_Some; [exact Hrun| |exact Hloop].
  intros a s res' _. unfold mbind, M_bind.
  destruct (to_pydantic_model_class fields lib fuel a s) as [res2|] eqn:Ha;
    [|discriminate].
  by rewrite (IH _ _ _ Ha fuel') by lia.
Qed.

Lemma return_model_total self struct_name :
  exists r self', return_model self struct_name = Some (r, self').
Proof.
  unfold return_model.
  destruct (_struct_namespace_map self !! struct_name); eauto.
Qed.

Section Termination.

Variable fields : StructClass -> list MFieldInfo.t.
Variable lib : Collaborators.
Variable names : gset string.

Lemma covered_child cls y :
  covered fields names cls -> edge fields cls y -> covered fields names y.
Proof. intros Hc He x Hx. apply Hc. by eapply rtc_l. Qed.

Lemma nested_calls_terminate fuel :
  (forall cls self, covered fields names cls ->
     size (names ∖ dom (_struct_namespace_map self)) < fuel ->
     exists r self',
       to_pydantic_model_class fields lib fuel cls self = Some (r, self')) ->
  forall nested_structs self,
    (forall y, y ∈ nested_structs -> covered fields names y) ->
    size (names ∖ dom (_struct_namespace_map self)) < fuel ->
    exists r self',
      for_each nested_structs
        (fun nested_struct =>
           to_pydantic_model_class fields lib fuel nested_struct;; mret tt) self
      = Some (r, self').
Proof.
  intros Hcall. induction nested_structs as [|y ns IH]; intros self Hcov Hsize.
  - by eexists _, _.
  - destruct (Hcall y self) as (r1 & self1 & Hy); [apply Hcov; left|done|].
    cbn [for_each]. unfold mbind at 1, M_bind at 1.
    unfold mbind at 1, M_bind at 1. rewrite Hy.
    destruct r1 as [l|e]; [|by eexists _, _].
    unfold mret at 1, M_ret at 1. apply IH.
    + intros. apply Hcov. by right.
    + eapply Nat.le_lt_trans; [|exact Hsize]. apply subseteq_size.
      apply to_pydantic_model_class_steps, plugin_steps_dom in Hy.
      set_solver.
Qed.

(** The conversion ends, with a class or with an exception, once the fuel
    exceeds the number of names that are not cached yet. *)
Lemma to_pydantic_model_class_terminates fuel :
  forall cls self, covered fields names cls ->
    size (names ∖ dom (_struct_namespace_map self)) < fuel ->
    exists r self',
      to_pydantic_model_class fields lib fuel cls self = Some (r, self').
Proof.
  induction fuel as [|fuel IH]; intros cls self Hcov Hsize; [lia|].
  rewrite to_pydantic_model_class_unfold. cbn zeta.
  case_bool_decide as Hdom; [|apply return_model_total].
  destruct (scan_fields _ _ _ _ _ _) as [[definitions nested]|e] eqn:Hscan;
    [|by eexists _, _].
  cbn [fst snd].
  destruct (pydantic_create_model _ _ _ _) as [fs|e]; [|by eexists _, _].
  apply scan_fields_Ok in Hscan as [-> _]. cbn [app].
  assert (__name__ cls ∈ names) as Hin by (by apply Hcov).
  destruct (nested_calls_terminate fuel IH
              (filter (fun s => to_discover self (__name__ cls) s = true)
                 (children fields cls))
              (registered self (__name__ cls) fs)) as (r1 & self2 & Hloop).
  { intros y [Hy _]%elem_of_to_discover. by eapply covered_child. }
  { assert (names ∖ dom (_struct_namespace_map
                           (registered self (__name__ cls) fs))
            ⊂ names ∖ dom (_struct_namespace_map self)) as Hsub.
    { unfold registered. cbn [_struct_namespace_map].
      rewrite dom_insert_L. set_solver. }
    apply subset_size in Hsub. lia. }
  unfold children in Hloop. rewrite Hloop.
  destruct r1 as [[]|e]; [apply return_model_total|by eexists _, _].
Qed.

End Termination.

(** *** Discovery *)

Section Discovery.

Variable fields : StructClass -> list MFieldInfo.t.
Variable lib : Collaborators.
Variable U : StructClass -> Prop.
Hypothesis U_closed : forall x y, U x -> edge fields x y -> U y.
Hypothesis U_names : forall x y, U x -> U y -> __name__ x = __name__ y -> x = y.

Lemma discovery_closed_refl self self' :
  _struct_namespace_map self' = _struct_namespace_map self ->
  discovery_closed fields U self self'.
Proof. intros E x _ Hin Hout. rewrite E in Hin. done. Qed.

Lemma discovery_closed_trans self1 self2 self3 :
  dom (_struct_namespace_map self2) ⊆ dom (_struct_namespace_map self3) ->
  discovery_closed fields U self1 self2 ->
  discovery_closed fields U self2 self3 ->
  discovery_closed fields U self1 self3.
Proof.
  intros Hsub H12 H23 x Hx Hin Hout y Hy.
  destruct (decide (__name__ x ∈ dom (_struct_namespace_map self2))).
  - apply Hsub. by eapply H12.
  - by eapply H23.
Qed.

Lemma nested_calls_discover fuel :
  (forall cls self l self', U cls ->
     to_pydantic_model_class fields lib fuel cls self = Some (Ok l, self') ->
     discovery_closed fields U self self') ->
  forall nested_structs self self',
    (forall y, y ∈ nested_structs -> U y) ->
    for_each nested_structs
      (fun nested_struct =>
         to_pydantic_model_class fields lib fuel nested_struct;; mret tt) self
    = Some (Ok tt, self') ->
    (forall y, y ∈ nested_structs ->
       __name__ y ∈ dom (_struct_namespace_map self'))
    /\ discovery_closed fields U self self'.
Proof.
  intros Hcall. induction nested_structs as [|y ns IH];
    intros self self' HU Hloop.
  - cbn in Hloop. unfold mret, M_ret in Hloop. simplify_eq.
    split; [by intros y ?%elem_of_nil|by apply discovery_closed_refl].
  - pose proof Hloop as Hsteps%nested_calls_steps.
    apply for_each_cons_inv in Hloop as (r1 & self1 & Hy & Hrest).
    apply nested_call_inv in Hy as (r0 & Hy & ->).
    destruct r0 as [l|e]; [|by destruct Hrest].
    pose proof Hrest as Hsteps2%nested_calls_steps%plugin_steps_dom.
    destruct (IH self1 self') as [Hin Hcl]; [intros; apply HU; by right|done|].
    split.
    + intros y' [->|Hy']%elem_of_cons; [|by apply Hin].
      apply Hsteps2, elem_of_dom. exists l.
      by eapply to_pydantic_model_class_cached.
    + eapply discovery_closed_trans; [done| |done].
      eapply Hcall; [|done]. apply HU. by left.
Qed.

(** After a conversion that returns a class, every class whose name the
    conversion cached has the names of its children in the cache. *)
Lemma to_pydantic_model_class_discovers fuel :
  forall cls self l self', U cls ->
    to_pydantic_model_class fields lib fuel cls self = Some (Ok l, self') ->
    discovery_closed fields U self self'.
Proof.
  induction fuel as [|fuel IH]; intros cls self l self' HU Hrun;
    [discriminate|].
  destruct (decide (__name__ cls ∈ dom (_struct_namespace_map self)))
    as [Hdom|Hdom].
  { rewrite to_pydantic_model_class_hit in Hrun by done.
    apply return_model_inv in Hrun as [(l' & _ & -> & _)|(_ & ? & _)];
      [|discriminate].
    by apply discovery_closed_refl. }
  destruct (to_pydantic_model_class_miss _ _ _ _ _ _ _ Hdom Hrun)
    as [(e & _ & ? & _)
       |(defs & nested & Hscan & [(e & _ & ? & _)
                                 |(fs & r1 & self2 & _ & Hloop & Hret)])];
    [done|done|].
  destruct r1 as [[]|e]; [|by destruct Hret].
  apply scan_fields_Ok in Hscan as [-> _]. cbn [app] in Hloop.
  pose proof Hloop as Hsteps%nested_calls_steps%plugin_steps_dom.
  apply (nested_calls_discover fuel IH) in Hloop as [Hin Hcl].
  2:{ intros y [Hy _]%elem_of_to_discover. by eapply U_closed. }
  apply return_model_inv in Hret as [(l' & _ & -> & _)|(_ & ? & _)];
    [|discriminate].
  intros x Hx Hx' Hnew y Hy.
  change (__name__ y ∈ dom (_struct_namespace_map self2)).
  change (__name__ x ∈ dom (_struct_namespace_map self2)) in Hx'.
  assert (dom (_struct_namespace_map (registered self (__name__ cls) fs))
          = {[__name__ cls]} ∪ dom (_struct_namespace_map self)) as Hreg.
  { unfold registered. cbn [_struct_namespace_map]. apply dom_insert_L. }
  destruct (decide (__name__ x = __name__ cls)) as [Heq|Hne].
  - apply U_names in Heq as ->; [|done..].
    destruct (decide (__name__ y = __name__ cls)) as [Hy1|Hy1].
    { apply Hsteps. rewrite Hreg, Hy1. set_solver. }
    destruct (decide (__name__ y ∈ dom (_struct_namespace_map self)))
      as [Hy2|Hy2].
    { apply Hsteps. rewrite Hreg. set_solver. }
    apply Hin, elem_of_to_discover. done.
  - eapply Hcl; [done|done| |done]. rewrite Hreg. set_solver.
Qed.

End Discovery.

Section Soundness.

Variable fields : StructClass -> list MFieldInfo.t.
Variable lib : Collaborators.

Lemma nested_calls_sound fuel :
  (forall cls self r self',
     to_pydantic_model_class fields lib fuel cls self = Some (r, self') ->
     forall n, n ∈ dom (_struct_namespace_map self') ->
               n ∉ dom (_struct_namespace_map self) ->
               exists x, reachable fields cls x /\ __name__ x = n) ->
  forall nested_structs self r self',
    for_each nested_structs
      (fun nested_struct =>
         to_pydantic_model_class fields lib fuel nested_struct;; mret tt) self
    = Some (r, self') ->
    forall n, n ∈ dom (_struct_namespace_map self') ->
              n ∉ dom (_struct_namespace_map self) ->
              exists y x, y ∈ nested_structs /\ reachable fields y x
                          /\ __name__ x = n.
Proof.
  intros Hcall. induction nested_structs as [|y ns IH];
    intros self r self' Hloop n Hin Hout.
  - cbn in Hloop. unfold mret, M_ret in Hloop. by simplify_eq.
  - apply for_each_cons_inv in Hloop as (r1 & self1 & Hy & Hrest).
    apply nested_call_inv in Hy as (r0 & Hy & ->).
    destruct (decide (n ∈ dom (_struct_namespace_map self1))) as [Hn|Hn].
    + destruct (Hcall _ _ _ _ Hy n Hn Hout) as (x & Hx & Hname).
      exists y, x. split; [left|done].
    + destruct r0 as [l|e]; [|by destruct Hrest as [_ ->]].
      destruct (IH _ _ _ Hrest n Hin Hn) as (y' & x & Hy' & Hx).
      exists y', x. split; [by right|done].
Qed.

(** Whatever its outcome, a conversion caches only names of struct classes
    that are reachable from its argument. *)
Lemma to_pydantic_model_class_sound fuel :
  forall cls self r self',
    to_pydantic_model_class fields lib fuel cls self = Some (r, self') ->
    forall n, n ∈ dom (_struct_namespace_map self') ->
              n ∉ dom (_struct_namespace_map self) ->
              exists x, reachable fields cls x /\ __name__ x = n.
Proof.
  induction fuel as [|fuel IH]; intros cls self r self' Hrun n Hin Hout;
    [discriminate|].
  assert (forall s, return_model s (__name__ cls) = Some (r, self') ->
                    _struct_namespace_map self' = _struct_namespace_map s)
    as Hfin.
  { by intros s [(l' & _ & -> & _)|(_ & _ & ->)]%return_model_inv. }
  destruct (decide (__name__ cls ∈ dom (_struct_namespace_map self)))
    as [Hdom|Hdom].
  { rewrite to_pydantic_model_class_hit in Hrun by done.
    rewrite (Hfin _ Hrun) in Hin. done. }
  destruct (to_pydantic_model_class_miss _ _ _ _ _ _ _ Hdom Hrun)
    as [(e & _ & _ & ->)
       |(defs & nested & Hscan & [(e & _ & _ & ->)
                                 |(fs & r1 & self2 & _ & Hloop & Hret)])];
    [done|done|].
  apply scan_fields_Ok in Hscan as [-> _]. cbn [app] in Hloop.
  assert (_struct_namespace_map self' = _struct_namespace_map self2) as E.
  { destruct r1 as [[]|e]; [by apply Hfin|by destruct Hret as [_ ->]]. }
  rewrite E in Hin.
  destruct (decide (n = __name__ cls)) as [->|Hne].
  { exists cls. split; [apply rtc_refl|done]. }
  destruct (nested_calls_sound fuel IH _ _ _ _ Hloop n Hin)
    as (y & x & [Hy _]%elem_of_to_discover & Hx & Hname).
  { unfold registered. cbn [_struct_namespace_map].
    rewrite dom_insert_L. set_solver. }
  exists x. split; [|done]. by eapply rtc_l.
Qed.

End Soundness.

(** *** Nested discovery *)

Lemma NoDup_names_inj (l : list StructClass) x y :
  NoDup (map __name__ l) -> x ∈ l -> y ∈ l -> __name__ x = __name__ y -> x = y.
Proof.
  induction l as [|a l IH]; cbn [map]; intros Hnd Hx Hy Hname.
  - by apply elem_of_nil in Hx.
  - apply NoDup_cons in Hnd as [Ha Hnd].
    apply elem_of_cons in Hx as [->|Hx]; apply elem_of_cons in Hy as [->|Hy].
    + done.
    + exfalso. apply Ha. rewrite Hname. by apply (list_elem_of_fmap_2 __name__).
    + exfalso. apply Ha. rewrite <- Hname. by apply (list_elem_of_fmap_2 __name__).
    + by apply IH.
Qed.

(** C1, as the code has it: let the struct classes reachable from the
    top-level class, through fields typed as a struct class or as list, set
    and union-type composites of struct classes, be the top-level class and
    [N] nested classes, all with different names. One conversion on a new
    plugin ends, with a class or with an exception, and leaves a cache with
    one class per name and with no name other than those [N+1]. When the
    conversion returns a class, the keys of the cache are exactly those
    [N+1] names, each bound to a class of its own. *)
Theorem nested_discovery_complete
    (fields : StructClass -> list MFieldInfo.t) (lib : Collaborators)
    (root : StructClass) (nested : list StructClass) :
  NoDup (map __name__ (root :: nested)) ->
  (forall cls, reachable fields root cls <-> cls ∈ root :: nested) ->
  exists r self',
    (forall fuel, S (length nested) < fuel ->
       to_pydantic_model_class fields lib fuel root __init__ = Some (r, self'))
    /\ one_class_per_name self'
    /\ dom (_struct_namespace_map self')
       ⊆ list_to_set (map __name__ (root :: nested))
    /\ (forall model, r = Ok model ->
          dom (_struct_namespace_map self')
          = list_to_set (map __name__ (root :: nested))
          /\ size (_struct_namespace_map self') = S (length nested)
          /\ length (store self') = S (length nested)).
Proof.
  intros Hnd Hreach.
  set (names := list_to_set (map __name__ (root :: nested)) : gset string).
  assert (size names = S (length nested)) as Hsize.
  { subst names. rewrite size_list_to_set by done. by rewrite length_map. }
  assert (forall cls, reachable fields root cls -> __name__ cls ∈ names) as Hcov.
  { intros cls Hcls%Hreach. subst names. apply elem_of_list_to_set.
    by apply (list_elem_of_fmap_2 __name__). }
  destruct (to_pydantic_model_class_terminates fields lib names
              (S (S (length nested))) root __init__ Hcov)
    as (r & self' & Hrun).
  { cbn [__init__ _struct_namespace_map]. rewrite dom_empty_L.
    rewrite difference_empty_L. lia. }
  exists r, self'.
  pose proof (to_pydantic_model_class_steps _ _ _ _ _ _ _ Hrun) as Hsteps.
  pose proof (plugin_steps_one_class _ _ Hsteps one_class_per_name_init)
    as Hone.
  assert (dom (_struct_namespace_map self') ⊆ names) as Hsub.
  { intros n Hn.
    destruct (to_pydantic_model_class_sound _ _ _ _ _ _ _ Hrun n Hn)
      as (x & Hx & <-); [|by apply Hcov].
    cbn [__init__ _struct_namespace_map]. rewrite dom_empty_L. set_solver. }
  split; [|split; [done|split; [done|]]].
  { intros fuel Hfuel.
    eapply to_pydantic_model_class_fuel_mono; [exact Hrun|lia]. }
  intros model ->.
  assert (dom (_struct_namespace_map self') = names) as Hdom.
  { apply set_eq. intros n. split; [apply Hsub|].
    subst names. rewrite elem_of_list_to_set.
    intros (x & -> & Hx%Hreach)%list_elem_of_fmap. clear Hsize Hcov Hsub.
    unfold reachable in Hx. revert x Hx.
    apply (rtc_ind_r (fun x => __name__ x ∈ dom (_struct_namespace_map self'))).
    2: intros x y Hx Hxy IH.
    + apply elem_of_dom. exists model.
      by eapply to_pydantic_model_class_cached.
    + eapply (to_pydantic_model_class_discovers fields lib
                (fun cls => cls ∈ root :: nested));
        [| | |exact Hrun| |exact IH| |exact Hxy].
      * intros a b Ha%Hreach Hab. apply Hreach. by eapply rtc_r.
      * intros a b. by apply NoDup_names_inj.
      * apply Hreach, rtc_refl.
      * by apply Hreach.
      * cbn [__init__ _struct_namespace_map]. rewrite dom_empty_L.
        set_solver. }
  split; [done|]. split.
  - by rewrite <- size_dom, Hdom.
  - destruct Hone as [_ <-]. by rewrite <- size_dom, Hdom.
Qed.

Lemma reachable_Owner cls :
  reachable example_fields Owner cls <-> cls ∈ [Owner; Pet].
Proof.
  split.
  - unfold reachable. revert cls.
    apply (rtc_ind_r (fun cls => cls ∈ [Owner; Pet])); [by left|].
    intros x y Hx Hxy IH. unfold edge in Hxy.
    apply elem_of_cons in IH as [->|[->|[]%elem_of_nil]%elem_of_cons];
      vm_compute in Hxy.
    + apply elem_of_cons in Hxy as [->|[]%elem_of_nil]. right. by left.
    + by apply elem_of_nil in Hxy.
  - intros [->|[->|[]%elem_of_nil]%elem_of_cons]%elem_of_cons; [apply rtc_refl|].
    apply rtc_once. unfold edge. vm_compute. by left.
Qed.

Lemma nested_discovery_complete_witness :
  exists self',
    to_pydantic_model_class example_fields python_libraries 3 Owner __init__
    = Some (Ok 0, self')
    /\ dom (_struct_namespace_map self') = list_to_set ["Owner"; "Pet"]
    /\ size (_struct_namespace_map self') = 2
    /\ length (store self') = 2
    /\ one_class_per_name self'.
Proof.
  destruct (nested_discovery_complete example_fields python_libraries Owner
              [Pet]) as (r & self' & Hrun & Hone & _ & Hok).
  - apply (bool_decide_unpack _). by vm_compute.
  - exact reachable_Owner.
  - specialize (Hrun 3 ltac:(cbn; lia)).
    assert (r = Ok 0) as ->.
    { assert (exists s, to_pydantic_model_class example_fields
                          python_libraries 3 Owner __init__
                        = Some (Ok 0, s)) as [s Hs]
        by (eexists; vm_compute; reflexivity).
      congruence. }
    destruct (Hok 0 eq_refl) as (Hdom & Hsize & Hlen).
    exists self'. by split_and!.
Defined.

(** Counterexamples to the statement of C1. [Kennel] refers to one nested
    struct class, inside a tuple: the conversion on a new plugin leaves one
    entry in the cache, not two, and [Pet] is not there. [Clinic] refers to
    two struct classes named [Pet], the second of which refers to [Toy]: the
    nested names are [Pet] and [Toy], and the conversion leaves two entries,
    not three; [Toy] is not there. [Shelter] refers to [Branch] and to
    [Pet]; pydantic refuses the field [json] of [Branch], the conversion of
    [Shelter] raises [NameError] and leaves one entry, not three. *)
Lemma nested_discovery_counterexample :
  (references example_fields Kennel = [Pet]
   /\ references example_fields Pet = []
   /\ exists self',
        to_pydantic_model_class example_fields python_libraries 3 Kennel
          __init__ = Some (Ok 0, self')
        /\ size (_struct_namespace_map self') = 1
        /\ _struct_namespace_map self' !! "Pet" = None
        /\ size (_struct_namespace_map self')
           <> length (references example_fields Kennel) + 1)
  /\ (children example_fields Clinic = [Pet; Pet']
      /\ children example_fields Pet = []
      /\ children example_fields Pet' = [Toy]
      /\ children example_fields Toy = []
      /\ exists self',
           to_pydantic_model_class example_fields python_libraries 4 Clinic
             __init__ = Some (Ok 0, self')
           /\ size (_struct_namespace_map self') = 2
           /\ _struct_namespace_map self' !! "Toy" = None
           /\ size (_struct_namespace_map self')
              <> length ["Pet"; "Toy"] + 1)
  /\ (children example_fields Shelter = [Branch; Pet]
      /\ children example_fields Branch = [Branch]
      /\ children example_fields Pet = []
      /\ exists self',
           to_pydantic_model_class example_fields python_libraries 4 Shelter
             __init__ = Some (Raise NameError, self')
           /\ size (_struct_namespace_map self') = 1
           /\ size (_struct_namespace_map self')
              <> length ["Branch"; "Pet"] + 1).
Proof.
  split; [|split].
  - split; [reflexivity|]. split; [reflexivity|].
    eexists. split; [vm_compute; reflexivity|].
    split; [by vm_compute|]. split; [by vm_compute|]. by vm_compute.
  - do 4 (split; [reflexivity|]).
    eexists. split; [vm_compute; reflexivity|].
    split; [by vm_compute|]. split; [by vm_compute|]. by vm_compute.
  - do 3 (split; [reflexivity|]).
    eexists. split; [vm_compute; reflexivity|].
    split; [by vm_compute|]. by vm_compute.
Qed.

(** *** Self-reference *)

Lemma dict_setitem_elem_of_same {V} (d : list (string * V)) key value :
  (key, value) ∈ dict_setitem d key value.
Proof.
  induction d as [|[k v] d IH]; cbn [dict_setitem]; [by left|].
  case_decide as Hk; [subst; by left|by right].
Qed.

Lemma dict_setitem_elem_of_other {V} (d : list (string * V)) key value e :
  e ∈ d -> e.1 <> key -> e ∈ dict_setitem d key value.
Proof.
  induction d as [|[k v] d IH]; cbn [dict_setitem]; intros He Hne.
  - by apply elem_of_nil in He.
  - apply elem_of_cons in He as [->|He].
    + rewrite decide_False by done. by left.
    + case_decide; by right; auto.
Qed.

Lemma dict_setitem_elem_of_inv {V} (d : list (string * V)) key value e :
  e ∈ dict_setitem d key value -> e ∈ d \/ e = (key, value).
Proof.
  induction d as [|[k v] d IH]; cbn [dict_setitem].
  - intros [->|[]%elem_of_nil]%elem_of_cons. by right.
  - case_decide as Hk.
    + intros [->|He]%elem_of_cons; [subst; by right|]. left. by right.
    + intros [->|He]%elem_of_cons; [left; by left|].
      destruct (IH He) as [?|?]; [left; by right|by right].
Qed.

Lemma field_definitions_keep {V} (items : list (string * V)) :
  forall field_definitions e,
    e ∈ field_definitions ->
    (forall item, item ∈ items -> item.1 <> e.1) ->
    e ∈ foldl (fun d item => dict_setitem d item.1 item.2)
          field_definitions items.
Proof.
  induction items as [|item items IH]; intros defs e He Hne; cbn [foldl];
    [done|].
  apply IH.
  - apply dict_setitem_elem_of_other; [done|].
    intros E. by apply (Hne item); [left|].
  - intros item' Hitem'. apply Hne. by right.
Qed.

(** With field names that differ, every item is in the dict at the end. *)
Lemma field_definitions_item {V} (items : list (string * V)) :
  forall field_definitions item,
    NoDup (map fst items) -> item ∈ items ->
    item ∈ foldl (fun d item => dict_setitem d item.1 item.2)
             field_definitions items.
Proof.
  induction items as [|item0 items IH]; intros defs item Hnd Hitem;
    [by apply elem_of_nil in Hitem|].
  cbn [map] in Hnd. apply NoDup_cons in Hnd as [Hfresh Hnd].
  cbn [foldl].
  apply elem_of_cons in Hitem as [->|Hitem]; [|by apply IH].
  apply field_definitions_keep.
  - destruct item0 as [k v]. apply dict_setitem_elem_of_same.
  - intros item' Hitem' E. apply Hfresh. rewrite <- E.
    by apply (list_elem_of_fmap_2 fst).
Qed.

Lemma field_definitions_elem_of_inv {V} (items : list (string * V)) :
  forall field_definitions e,
    e ∈ foldl (fun d item => dict_setitem d item.1 item.2)
          field_definitions items ->
    e ∈ field_definitions \/ e ∈ items.
Proof.
  induction items as [|[k v] items IH]; intros defs e He; cbn [foldl] in He;
    [by left|].
  destruct (IH _ _ He) as [Hd|Hi]; [|right; by right].
  apply dict_setitem_elem_of_inv in Hd as [Hd|Hd]; [by left|].
  right. rewrite Hd. by left.
Qed.

Lemma field_translated_names lib self struct_name fs items :
  Forall2 (field_translated lib self struct_name) fs items ->
  map fst items = map MFieldInfo.name fs.
Proof.
  induction 1 as [|field item fs items [Hn _] _ IH]; cbn [map]; [done|].
  by rewrite Hn, IH.
Qed.

(** The definition that a scan makes of a field typed as a list of a
    struct class. *)
Lemma scan_fields_list_of_struct lib self struct_name fs definitions nested
    field cls :
  scan_fields lib self struct_name fs [] [] = Ok (definitions, nested) ->
  NoDup (map MFieldInfo.name fs) ->
  field ∈ fs ->
  MFieldInfo.type field = TGeneric builtin_list [TStruct cls] ->
  (MFieldInfo.name field,
   (PApp C_list [PRef (__name__ cls)], generate_field_info field))
  ∈ definitions.
Proof.
  intros [_ (items & Hitems & ->)]%scan_fields_Ok Hnd Hfield Htype.
  apply list_elem_of_lookup in Hfield as [i Hi].
  destruct (Forall2_lookup_l _ _ _ _ _ Hitems Hi)
    as ([n [p info]] & Hitem & Hn & Hinfo & _ & Hcomplex & _).
  cbn [fst snd] in *. subst n info.
  rewrite Htype in Hcomplex.
  destruct (Hcomplex eq_refl) as (nested1 & nested1' & Hg).
  cbn in Hg. injection Hg as _ <-.
  apply field_definitions_item.
  - by rewrite (field_translated_names _ _ _ _ _ Hitems).
  - by eapply list_elem_of_lookup_2.
Qed.

Lemma walk_self_reference (localns : gmap string loc) name l fs field_name
    info :
  localns !! name = Some l ->
  (field_name, (PApp C_list [PRef name], info)) ∈ fs
  \/ (field_name, (PApp C_list [PModel l], info)) ∈ fs ->
  ((field_name, (PApp C_list [PRef name], info)) ∈ (resolve_fields localns fs).1
   \/ (field_name, (PApp C_list [PModel l], info))
      ∈ (resolve_fields localns fs).1)
  /\ ((resolve_fields localns fs).2 = true ->
      (field_name, (PApp C_list [PModel l], info))
      ∈ (resolve_fields localns fs).1).
Proof.
  intros Hl Hf. unfold resolve_fields.
  destruct Hf as [Hf|Hf];
    destruct (walk_list_elem_of _ (resolve_field_stopped localns) _ _ true Hf)
      as ([|] & Hb & Hend);
    cbn in Hb; rewrite ?Hl in Hb; cbn in Hb.
  - split; [by right|done].
  - split; [by left|]. intros E. by specialize (Hend E).
  - split; [by right|done].
  - split; [by right|done].
Qed.

Lemma plugin_step_self_reference name l field_name info self self' :
  plugin_step self self' ->
  self_reference_kept name l field_name info self ->
  self_reference_kept name l field_name info self'.
Proof.
  destruct 1 as [self name' defs Hdom|self name' l' Hl'];
    intros (Hl & model & Hm & Hf).
  - split; unfold registered; cbn [store _struct_namespace_map].
    + rewrite lookup_insert_ne; [done|]. intros ->. apply Hdom, elem_of_dom.
      by eexists.
    + exists model. split; [by apply lookup_app_l_Some|done].
  - split; [done|]. unfold resolved. cbn [store].
    destruct (decide (l' = l)) as [->|Hne].
    + eexists. split; [by rewrite list_lookup_alter_eq, Hm|].
      cbn [update_forward_refs model_fields].
      by apply walk_self_reference.
    + exists model. split; [|done]. by rewrite list_lookup_alter_ne.
Qed.

Lemma plugin_steps_self_reference name l field_name info self self' :
  rtc plugin_step self self' ->
  self_reference_kept name l field_name info self ->
  self_reference_kept name l field_name info self'.
Proof. induction 1; eauto using plugin_step_self_reference. Qed.

(** C3, as the code has it: the forward conversion terminates on every
    finite struct type graph, with a class or with an exception. When the
    names of the struct classes reachable from the argument lie in a finite
    set, the conversion ends for every fuel above the number of those names
    that are not cached yet, and a class that it returns is the one cached
    under the argument's name. The recursion is bounded because
    [handle_nested_stuct] appends neither a struct named as the parent nor
    one whose name is cached. When the conversion returns a class for a
    struct class with a field typed as a list of the class itself, and
    pydantic kept the definition of that field, the field of the returned
    class is a list of the returned class. *)
Theorem forward_conversion_terminates
    (fields : StructClass -> list MFieldInfo.t) (lib : Collaborators)
    (names : gset string) (model_class : StructClass) (self : Plugin) :
  (forall cls, reachable fields model_class cls -> __name__ cls ∈ names) ->
  exists r self',
    (forall fuel, size (names ∖ dom (_struct_namespace_map self)) < fuel ->
       to_pydantic_model_class fields lib fuel model_class self
       = Some (r, self'))
    /\ (forall model, r = Ok model ->
          _struct_namespace_map self' !! __name__ model_class = Some model)
    /\ (forall struct parent_name nested,
          __name__ struct = parent_name
          \/ __name__ struct ∈ dom (_struct_namespace_map self) ->
          handle_nested_stuct self struct parent_name nested = nested)
    /\ (forall model field,
          r = Ok model ->
          __name__ model_class ∉ dom (_struct_namespace_map self) ->
          NoDup (map MFieldInfo.name (fields model_class)) ->
          field ∈ fields model_class ->
          MFieldInfo.type field = TGeneric builtin_list [TStruct model_class] ->
          (forall definitions fs definition,
             pydantic_create_model lib (__name__ model_class) the_config
               definitions = Ok fs ->
             definition ∈ definitions ->
             definition.1 = MFieldInfo.name field ->
             definition ∈ fs) ->
          exists generated,
            store self' !! model = Some generated
            /\ (MFieldInfo.name field,
                (PApp C_list [PModel model], generate_field_info field))
               ∈ model_fields generated).
Proof.
  intros Hcov.
  destruct (to_pydantic_model_class_terminates fields lib names
              (S (size (names ∖ dom (_struct_namespace_map self))))
              model_class self Hcov) as (r & self' & Hrun); [lia|].
  exists r, self'. split_and!.
  - intros fuel Hfuel.
    eapply to_pydantic_model_class_fuel_mono; [exact Hrun|lia].
  - intros model ->. by eapply to_pydantic_model_class_cached.
  - intros struct parent_name nested Hcase. unfold handle_nested_stuct.
    destruct Hcase as [E|Hin].
    + by rewrite (bool_decide_eq_false_2 _) by (by intros ?).
    + rewrite (bool_decide_eq_false_2 (_ ∉ _)) by (by intros ?).
      by rewrite andb_false_r.
  - intros model field -> Hdom Hnd Hfield Htype Hkept.
    destruct (to_pydantic_model_class_miss _ _ _ _ _ _ _ Hdom Hrun)
      as [(e & _ & ? & _)
         |(defs & nested & Hscan & [(e & _ & ? & _)
                                   |(fs & r1 & self2 & Hcreate & Hloop & Hret)])];
      [done|done|].
    destruct r1 as [[]|e]; [|by destruct Hret].
    pose proof (scan_fields_list_of_struct _ _ _ _ _ _ _ _ Hscan Hnd Hfield
                  Htype) as Hdef.
    apply (Hkept _ _ _ Hcreate) in Hdef; [|done].
    apply nested_calls_steps in Hloop.
    eapply (plugin_steps_self_reference (__name__ model_class)
              (length (store self)) (MFieldInfo.name field)
              (generate_field_info field)) in Hloop.
    + destruct Hloop as (Hl & class & Hclass & Hf).
      apply return_model_inv in Hret
        as [(l & Hl' & -> & [[? Hout]|[? _]])|(_ & ? & _)];
        [|discriminate..].
      simplify_eq. unfold resolution_outcome in Hout.
      rewrite Hclass in Hout. unfold update_forward_refs_outcome in Hout.
      eexists. split.
      * unfold resolved. cbn [store].
        by rewrite list_lookup_alter_eq, Hclass.
      * cbn [update_forward_refs model_fields].
        apply (walk_self_reference _ _ _ _ _ _ Hl Hf).
        by destruct (resolve_fields _ _).2.
    + split; unfold registered; cbn [store _struct_namespace_map].
      * apply lookup_insert_eq.
      * eexists. split; [by apply list_lookup_middle|]. by left.
Qed.

Lemma reachable_Node cls :
  reachable example_fields Node cls -> __name__ cls ∈ ({["Node"]} : gset string).
Proof.
  intros H. assert (cls = Node) as ->; [|by apply elem_of_singleton].
  revert cls H. apply (rtc_ind_r (fun cls => cls = Node)); [done|].
  intros x y _ Hxy ->. vm_compute in Hxy.
  by apply elem_of_cons in Hxy as [->|[]%elem_of_nil].
Qed.

(** [create_model] of the examples keeps the definition of a field whose
    name does not start with an underscore. *)
Lemma python_create_model_keeps name config definitions fs definition :
  python_create_model name config definitions = Ok fs ->
  definition ∈ definitions ->
  starts_with_underscore definition.1 = false ->
  definition ∈ fs.
Proof.
  unfold python_create_model. destruct (existsb _ _); [discriminate|].
  intros [= <-] Hd Hn. by apply list_elem_of_filter.
Qed.

Lemma forward_conversion_terminates_witness :
  exists self',
    to_pydantic_model_class example_fields python_libraries 2 Node __init__
    = Some (Ok 0, self')
    /\ exists generated,
         store self' !! 0 = Some generated
         /\ ("children",
             (PApp C_list [PModel 0],
              generate_field_info
                (required "children" (TGeneric builtin_list [TStruct Node]))))
            ∈ model_fields generated.
Proof.
  destruct (forward_conversion_terminates example_fields python_libraries
              {["Node"]} Node __init__ reachable_Node)
    as (r & self' & Hrun & _ & _ & Hf).
  specialize (Hrun 2 ltac:(vm_compute; lia)).
  assert (r = Ok 0) as ->.
  { assert (exists s, to_pydantic_model_class example_fields python_libraries
                        2 Node __init__ = Some (Ok 0, s)) as [s Hs]
      by (eexists; vm_compute; reflexivity).
    congruence. }
  exists self'. split; [exact Hrun|].
  apply (Hf 0 (required "children" (TGeneric builtin_list [TStruct Node]))).
  - reflexivity.
  - cbn. by rewrite dom_empty_L.
  - apply (bool_decide_unpack _). by vm_compute.
  - vm_compute. by left.
  - reflexivity.
  - intros definitions fs definition Hcreate Hd Hn.
    apply (python_create_model_keeps _ _ _ _ _ Hcreate Hd).
    by rewrite Hn.
Defined.

(** Counterexamples to the statement of C3: two struct classes with a
    field typed as a list of the class itself whose conversion does not
    return a class. [Tree] has a second field typed [typing.List], on which
    the rebuilder raises [AttributeError], with any libraries; [Branch] has
    a second field named [json], which pydantic refuses with [NameError].
    Nothing is cached in either case. *)
Lemma forward_conversion_counterexample :
  (required "children" (TGeneric builtin_list [TStruct Tree])
     ∈ example_fields Tree
   /\ forall lib fuel,
        to_pydantic_model_class example_fields lib (S fuel) Tree __init__
        = Some (Raise AttributeError, __init__))
  /\ (required "children" (TGeneric builtin_list [TStruct Branch])
        ∈ example_fields Branch
      /\ forall fuel,
           to_pydantic_model_class example_fields python_libraries (S fuel)
             Branch __init__
           = Some (Raise NameError, __init__)).
Proof.
  split; (split; [vm_compute; by left|]).
  - intros lib fuel. rewrite to_pydantic_model_class_unfold. reflexivity.
  - intros fuel. rewrite to_pydantic_model_class_unfold. reflexivity.
Qed.

(** * Further properties of the code *)

(** ** The rebuilder on every parametrised type *)

(** X1: on a parametrised type whose root is a key of
    [TYPE_CONSTRUCTOR_MAP], [dict] included, a result of the rebuilder is
    the subscription of the mapped constructor with the translated arguments
    in their order, and a struct class among the arguments is at its place
    as its name. When the root is [dict], [list] or [set] and no argument is
    complex, the rebuilder returns. *)
Theorem get_complex_type_known_root (lib : Collaborators) (self : Plugin)
    (type_ : pytype) (parent_name : string)
    (parent_nested_structs : list StructClass)
    (args : list pytype) (c : constructor) :
  __args__ type_ = Some args ->
  dict_getitem TYPE_CONSTRUCTOR_MAP (type_root type_) = Ok c ->
  (forall nested p,
     get_complex_type lib self type_ parent_name parent_nested_structs
     = (nested, Ok p) ->
     exists type_args,
       Forall2 (translated_argument lib self parent_name) args type_args
       /\ subscript lib c type_args = Ok p
       /\ forall i cls, args !! i = Some (TStruct cls) ->
            type_args !! i = Some (PRef (__name__ cls)))
  /\ (c <> C_Union ->
      (forall t, t ∈ args -> is_complex_type t = false) ->
      exists type_args,
        (get_complex_type lib self type_ parent_name parent_nested_structs).2
        = Ok (PApp c type_args)).
Proof.
  intros Ha Hc. split.
  - intros nested p Hrun.
    destruct (get_complex_type_Ok _ _ _ _ _ _ _ Hrun)
      as (args' & c' & type_args & Ha' & _ & Hc' & Hsub & Htr).
    assert (c' = c) as -> by congruence.
    simplify_eq. exists type_args. split; [done|]. split; [done|].
    intros i cls Hi.
    destruct (Forall2_lookup_l _ _ _ _ _ Htr Hi) as (p' & Hp' & Hcls & _).
    by rewrite (Hcls cls eq_refl) in Hp'.
  - intros Hne Hplain.
    destruct (get_complex_type_loop_plain
                (fun t nested => get_complex_type lib self t parent_name nested)
                self parent_name args Hplain [] parent_nested_structs)
      as (nested' & out & Hloop).
    exists out.
    destruct type_ as [| | |o args0|args0| |]; try discriminate;
      cbn in Ha; simplify_eq; cbn [get_complex_type]; rewrite Hloop, Hc;
      by destruct c.
Qed.

Lemma get_complex_type_known_root_witness :
  exists type_args,
    (get_complex_type python_libraries __init__
       (TGeneric builtin_dict [TClass "str"; TStruct Pet]) "Owner" []).2
    = Ok (PApp C_dict type_args).
Proof.
  destruct (get_complex_type_known_root python_libraries __init__
              (TGeneric builtin_dict [TClass "str"; TStruct Pet]) "Owner" []
              [TClass "str"; TStruct Pet] C_dict eq_refl eq_refl) as [_ H].
  apply H; [discriminate|].
  intros t [->|[->|[]%elem_of_nil]%elem_of_cons]%elem_of_cons; reflexivity.
Defined.

(** X2: whatever it is given and whatever its outcome, the rebuilder keeps
    the entries of the discovery list and appends to it only struct classes
    found in list, set and union-type positions of the arguments that are
    neither named as the parent nor cached. When it returns, it has appended
    all of them, in depth-first order of the arguments and with
    repetitions. *)
Theorem get_complex_type_discovery_list (lib : Collaborators) (self : Plugin)
    (type_ : pytype) (parent_name : string)
    (parent_nested_structs nested : list StructClass) (r : result ptype) :
  get_complex_type lib self type_ parent_name parent_nested_structs
  = (nested, r) ->
  exists extra,
    nested = parent_nested_structs ++ extra
    /\ (forall cls, cls ∈ extra ->
          (exists args, __args__ type_ = Some args
                        /\ cls ∈ flat_map discovered args)
          /\ __name__ cls <> parent_name
          /\ __name__ cls ∉ dom (_struct_namespace_map self))
    /\ (forall p args, r = Ok p -> __args__ type_ = Some args ->
          extra = filter (fun s => to_discover self parent_name s = true)
                    (flat_map discovered args)).
Proof.
  intros Hrun.
  destruct (get_complex_type_adds _ _ _ _ _ _ _ Hrun) as (extra & -> & Hextra).
  exists extra. split; [done|]. split.
  - intros cls Hcls. destruct (Hextra _ Hcls) as [Hin Hd].
    unfold to_discover in Hd.
    apply andb_true_iff in Hd as [Hne%bool_decide_eq_true Hout%bool_decide_eq_true].
    split; [|done].
    destruct (__args__ type_) as [args|]; [by exists args|].
    by apply elem_of_nil in Hin.
  - intros p args -> Ha.
    destruct (get_complex_type_Ok _ _ _ _ _ _ _ Hrun)
      as (args' & _ & _ & Ha' & E & _).
    rewrite Ha in Ha'. injection Ha' as <-. by apply app_inv_head in E.
Qed.

Lemma get_complex_type_discovery_list_witness :
  exists extra,
    [Owner; Pet] = [Owner] ++ extra
    /\ forall cls, cls ∈ extra ->
         (exists args,
            __args__ (TGeneric (other_class "tuple")
                        [TStruct Pet; typing_List; TStruct Toy]) = Some args
            /\ cls ∈ flat_map discovered args)
         /\ __name__ cls <> "Kennel"
         /\ __name__ cls ∉ dom (_struct_namespace_map __init__).
Proof.
  destruct (get_complex_type_discovery_list python_libraries __init__
    (TGeneric (other_class "tuple") [TStruct Pet; typing_List; TStruct Toy])
    "Kennel" [Owner] [Owner; Pet] (Raise AttributeError)
    ltac:(vm_compute; reflexivity)) as (extra & E & H & _).
  by exists extra.
Defined.

(** X3: the exceptions of the rebuilder. On an object without [__args__] it
    raises [AttributeError] and leaves the discovery list as it was. An
    exception it raises is [AttributeError], [KeyError] on a root that is not
    a key of [TYPE_CONSTRUCTOR_MAP], or an exception that [typing.Union]
    raised. It returns a type only on a parametrised type whose root is a
    key. *)
Theorem get_complex_type_exceptions (lib : Collaborators) (self : Plugin)
    (type_ : pytype) (parent_name : string)
    (parent_nested_structs : list StructClass) :
  let outcome :=
    get_complex_type lib self type_ parent_name parent_nested_structs in
  (__args__ type_ = None ->
   outcome = (parent_nested_structs, Raise AttributeError))
  /\ (forall e, outcome.2 = Raise e ->
        e = AttributeError
        \/ (e = KeyError
            /\ type_root type_
               ∉ [builtin_dict; builtin_list; builtin_set; UnionType])
        \/ exists type_args, typing_Union lib type_args = Raise e)
  /\ (forall p, outcome.2 = Ok p ->
        is_Some (__args__ type_)
        /\ type_root type_
           ∈ [builtin_dict; builtin_list; builtin_set; UnionType]).
Proof.
  cbn zeta. split_and!.
  - intros Ha. by destruct type_.
  - intros e He.
    destruct (get_complex_type lib self type_ parent_name
                parent_nested_structs) as [nested r] eqn:Hrun.
    cbn [snd] in He. subst r.
    by eapply get_complex_type_Raise.
  - intros p Hp.
    destruct (get_complex_type lib self type_ parent_name
                parent_nested_structs) as [nested r] eqn:Hrun.
    cbn [snd] in Hp. subst r.
    destruct (get_complex_type_Ok _ _ _ _ _ _ _ Hrun)
      as (args & c & _ & Ha & _ & Hc & _).
    split; [by eexists|].
    destruct (TYPE_CONSTRUCTOR_MAP_getitem (type_root type_))
      as [(c' & _ & Hin)|[Hk _]]; [done|congruence].
Qed.

Lemma get_complex_type_exceptions_witness :
  get_complex_type python_libraries __init__ typing_List "Owner" [Pet]
  = ([Pet], Raise AttributeError).
Proof.
  destruct (get_complex_type_exceptions python_libraries __init__ typing_List
              "Owner" [Pet]) as (H & _).
  exact (H eq_refl).
Defined.

(** ** The class generator: outcomes *)





(** X5: a conversion adds to the cache only names of struct classes that
    are reachable from its argument. *)
Theorem to_pydantic_model_class_adds_reachable_names
    (fields : StructClass -> list MFieldInfo.t) (lib : Collaborators)
    (fuel : nat)
    (model_class : StructClass) (self self' : Plugin) (r : result loc)
    (name : string) :
  to_pydantic_model_class fields lib fuel model_class self = Some (r, self') ->
  name ∈ dom (_struct_namespace_map self') ->
  name ∈ dom (_struct_namespace_map self)
  \/ exists cls, reachable fields model_class cls /\ __name__ cls = name.
Proof.
  intros Hrun Hin.
  destruct (decide (name ∈ dom (_struct_namespace_map self))); [by left|].
  right. by eapply to_pydantic_model_class_sound.
Qed.

Lemma to_pydantic_model_class_adds_reachable_names_witness :
  exists self',
    to_pydantic_model_class example_fields python_libraries 3 Owner __init__
    = Some (Ok 0, self')
    /\ exists cls, reachable example_fields Owner cls /\ __name__ cls = "Pet".
Proof.
  eexists. split; [vm_compute; reflexivity|].
  destruct (to_pydantic_model_class_adds_reachable_names example_fields
              python_libraries 3
              Owner __init__ _ (Ok 0) "Pet" ltac:(vm_compute; reflexivity))
    as [Hin|H].
  - apply (bool_decide_unpack _). by vm_compute.
  - vm_compute in Hin. discriminate.
  - exact H.
Defined.

(** ** The class generator: the generated classes *)

Lemma nested_calls_cached fields lib fuel nested_structs :
  forall self self',
    for_each nested_structs
      (fun nested_struct =>
         to_pydantic_model_class fields lib fuel nested_struct;; mret tt) self
    = Some (Ok tt, self') ->
    forall y, y ∈ nested_structs ->
              __name__ y ∈ dom (_struct_namespace_map self').
Proof.
  induction nested_structs as [|a ns IH]; intros self self' Hloop y Hy;
    [by apply elem_of_nil in Hy|].
  apply for_each_cons_inv in Hloop as (r1 & self1 & Ha & Hrest).
  apply nested_call_inv in Ha as (r0 & Ha & ->).
  destruct r0 as [l|e]; [|by destruct Hrest].
  apply elem_of_cons in Hy as [->|Hy]; [|by eapply IH].
  apply nested_calls_steps, plugin_steps_dom in Hrest. apply Hrest.
  apply elem_of_dom. exists l. by eapply to_pydantic_model_class_cached.
Qed.

(** A class object stays at its address; what the steps do to it is undone
    by any later resolution. *)
Lemma plugin_steps_class self self' :
  rtc plugin_step self self' ->
  forall l model, store self !! l = Some model ->
    exists model', store self' !! l = Some model'
      /\ forall localns, _struct_namespace_map self' ⊆ localns ->
           update_forward_refs localns model'
           = update_forward_refs localns model.
Proof.
  induction 1 as [self|self self1 self' Hstep Hsteps IH]; intros l model Hm.
  - by exists model.
  - pose proof (plugin_steps_cache _ _ Hsteps) as Hsub.
    assert (exists model1, store self1 !! l = Some model1
              /\ forall localns, _struct_namespace_map self1 ⊆ localns ->
                   update_forward_refs localns model1
                   = update_forward_refs localns model) as (model1 & Hm1 & E1).
    { destruct Hstep as [self name defs Hdom|self name l' Hl'].
      - exists model. split; [|done]. unfold registered. cbn [store].
        by apply lookup_app_l_Some.
      - unfold resolved. cbn [store _struct_namespace_map].
        destruct (decide (l' = l)) as [->|Hne].
        + eexists. split; [by rewrite list_lookup_alter_eq, Hm|].
          intros localns Hns. by apply update_forward_refs_mono.
        + exists model. split; [by rewrite list_lookup_alter_ne|done]. }
    destruct (IH l model1 Hm1) as (model' & Hm' & E').
    exists model'. split; [done|]. intros localns Hns.
    rewrite E' by done. apply E1. by etrans.
Qed.

(** A conversion of a name that is not cached, when it returns a class. *)
Lemma to_pydantic_model_class_generated fields lib fuel model_class self model
    self' :
  __name__ model_class ∉ dom (_struct_namespace_map self) ->
  to_pydantic_model_class fields lib fuel model_class self
  = Some (Ok model, self') ->
  exists fuel' definitions nested fs self2,
    fuel = S fuel'
    /\ scan_fields lib self (__name__ model_class) (fields model_class) [] []
       = Ok (definitions, nested)
    /\ pydantic_create_model lib (__name__ model_class) the_config definitions
       = Ok fs
    /\ for_each nested
         (fun nested_struct =>
            to_pydantic_model_class fields lib fuel' nested_struct;; mret tt)
         (registered self (__name__ model_class) fs)
       = Some (Ok tt, self2)
    /\ model = length (store self)
    /\ _struct_namespace_map self2 !! __name__ model_class = Some model
    /\ resolution_outcome self2 model = Ok tt
    /\ self' = resolved self2 model.
Proof.
  intros Hdom Hrun. destruct fuel as [|fuel]; [discriminate|].
  destruct (to_pydantic_model_class_miss _ _ _ _ _ _ _ Hdom Hrun)
    as [(e & _ & ? & _)
       |(defs & nested & Hscan & [(e & _ & ? & _)
                                 |(fs & r1 & self2 & Hcreate & Hloop & Hret)])];
    [done|done|].
  destruct r1 as [[]|e]; [|by destruct Hret].
  pose proof Hloop as Hsteps%nested_calls_steps%plugin_steps_cache.
  eapply lookup_weaken in Hsteps;
    [|unfold registered; cbn [_struct_namespace_map]; apply lookup_insert_eq].
  apply return_model_inv in Hret
    as [(l & Hl & -> & [[? Hout]|[? _]])|(? & ? & _)];
    [|discriminate..].
  simplify_eq. by exists fuel, defs, nested, fs, self2.
Qed.

(** X6: after a conversion that returned a class for a struct class whose
    name was not cached, every struct class that a field of it refers to,
    as the field type or in list, set and union-type positions of it, has
    its name in the cache, and a later conversion of that class resolves the
    class cached under it and returns it, unless the resolution raises
    [NameError]. *)
Theorem to_pydantic_model_class_converts_children
    (fields : StructClass -> list MFieldInfo.t) (lib : Collaborators)
    (fuel : nat)
    (model_class : StructClass) (self self' : Plugin) (model : loc)
    (field : MFieldInfo.t) (cls : StructClass) :
  __name__ model_class ∉ dom (_struct_namespace_map self) ->
  to_pydantic_model_class fields lib fuel model_class self
  = Some (Ok model, self') ->
  field ∈ fields model_class ->
  cls ∈ discovered (MFieldInfo.type field) ->
  exists nested_model,
    _struct_namespace_map self' !! __name__ cls = Some nested_model
    /\ forall fuel',
       exists r,
         to_pydantic_model_class fields lib (S fuel') cls self'
         = Some (r, resolved self' nested_model)
         /\ (r = Ok nested_model \/ r = Raise NameError).
Proof.
  intros Hdom Hrun Hfield Hcls.
  assert (__name__ cls ∈ dom (_struct_namespace_map self')) as Hin.
  { destruct (to_pydantic_model_class_generated _ _ _ _ _ _ _ Hdom Hrun)
      as (fuel' & defs & nested & fs & self2 & -> & Hscan & _ & Hloop & _
          & Hl & _ & ->).
    change (__name__ cls ∈ dom (_struct_namespace_map self2)).
    apply scan_fields_Ok in Hscan as [-> _]. cbn [app] in Hloop.
    pose proof Hloop as Hsteps%nested_calls_steps%plugin_steps_dom.
    assert (cls ∈ children fields model_class) as Hchild.
    { unfold children. apply list_elem_of_In, in_flat_map.
      exists field. split; by apply list_elem_of_In. }
    destruct (decide (__name__ cls = __name__ model_class)) as [E|Hne].
    { rewrite E. apply elem_of_dom. by eexists. }
    destruct (decide (__name__ cls ∈ dom (_struct_namespace_map self)))
      as [Hin|Hout].
    { apply Hsteps. unfold registered. cbn [_struct_namespace_map].
      rewrite dom_insert_L. set_solver. }
    eapply nested_calls_cached; [exact Hloop|].
    by apply elem_of_to_discover. }
  pose proof Hin as [l Hl]%elem_of_dom.
  exists l. split; [done|]. intros fuel'.
  rewrite to_pydantic_model_class_hit by done.
  unfold return_model. rewrite Hl.
  destruct (resolution_outcome_cases self' l) as [-> | ->]; eauto.
Qed.

Lemma to_pydantic_model_class_converts_children_witness :
  exists self',
    to_pydantic_model_class example_fields python_libraries 3 Owner __init__
    = Some (Ok 0, self')
    /\ exists nested_model,
         _struct_namespace_map self' !! "Pet" = Some nested_model
         /\ forall fuel',
            exists r,
              to_pydantic_model_class example_fields python_libraries
                (S fuel') Pet self'
              = Some (r, resolved self' nested_model)
              /\ (r = Ok nested_model \/ r = Raise NameError).
Proof.
  eexists. split; [vm_compute; reflexivity|].
  apply (to_pydantic_model_class_converts_children example_fields
           python_libraries 3 Owner __init__ _ 0
           (required "pets" (TGeneric builtin_list [TStruct Pet])) Pet).
  - cbn. by rewrite dom_empty_L.
  - vm_compute. reflexivity.
  - vm_compute. right. by left.
  - vm_compute. by left.
Defined.

(** X7: the class generated for a struct class whose name was not cached,
    when the conversion returns it. It is a new class object, registered
    under the struct's name. The field definitions handed to [create_model]
    are one item per struct field, under the name of the field, with the
    metadata [generate_field_info] gives and with the translated type, a
    later item replacing an earlier one of the same name. The class has the
    name of the struct, the fixed configuration and the fields that
    [create_model] made of these definitions, resolved against the cache as
    it is at the end. *)
Theorem to_pydantic_model_class_generated_class
    (fields : StructClass -> list MFieldInfo.t) (lib : Collaborators)
    (fuel : nat)
    (model_class : StructClass) (self self' : Plugin) (model : loc) :
  __name__ model_class ∉ dom (_struct_namespace_map self) ->
  to_pydantic_model_class fields lib fuel model_class self
  = Some (Ok model, self') ->
  exists items fs,
    Forall2 (field_translated lib self (__name__ model_class))
      (fields model_class) items
    /\ pydantic_create_model lib (__name__ model_class) the_config
         (foldl (fun d item => dict_setitem d item.1 item.2) [] items)
       = Ok fs
    /\ model = length (store self)
    /\ store self !! model = None
    /\ _struct_namespace_map self' !! __name__ model_class = Some model
    /\ store self' !! model
       = Some (update_forward_refs (_struct_namespace_map self')
                 {| model_name := __name__ model_class;
                    model_config := the_config;
                    model_fields := fs |}).
Proof.
  intros Hdom Hrun.
  destruct (to_pydantic_model_class_generated _ _ _ _ _ _ _ Hdom Hrun)
    as (fuel' & defs & nested & fs & self2 & -> & Hscan & Hcreate & Hloop
        & -> & Hl & _ & ->).
  apply scan_fields_Ok in Hscan as [_ (items & Hitems & ->)].
  exists items, fs. split; [done|]. split; [done|]. split; [done|].
  split; [by apply lookup_ge_None|]. split; [done|].
  apply nested_calls_steps in Hloop.
  destruct (plugin_steps_class _ _ Hloop (length (store self))
              {| model_name := __name__ model_class;
                 model_config := the_config; model_fields := fs |})
    as (model' & Hm' & E).
  { unfold registered. cbn [store]. by apply list_lookup_middle. }
  unfold resolved. cbn [store _struct_namespace_map].
  rewrite list_lookup_alter_eq, Hm'. cbn. f_equal. by apply E.
Qed.

Lemma to_pydantic_model_class_generated_class_witness :
  exists self' items fs,
    to_pydantic_model_class example_fields python_libraries 3 Owner __init__
    = Some (Ok 0, self')
    /\ Forall2 (field_translated python_libraries __init__ "Owner")
         (example_fields Owner) items
    /\ python_create_model "Owner" the_config
         (foldl (fun d item => dict_setitem d item.1 item.2) [] items)
       = Ok fs
    /\ store self' !! 0
       = Some (update_forward_refs (_struct_namespace_map self')
                 {| model_name := "Owner"; model_config := the_config;
                    model_fields := fs |}).
Proof.
  evar (self' : Plugin).
  assert (to_pydantic_model_class example_fields python_libraries 3 Owner
            __init__ = Some (Ok 0, self')) as Hrun
    by (subst self'; vm_compute; reflexivity).
  destruct (to_pydantic_model_class_generated_class example_fields
              python_libraries 3 Owner __init__ self' 0)
    as (items & fs & Hitems & Hcreate & _ & _ & _ & Hg).
  - cbn. by rewrite dom_empty_L.
  - exact Hrun.
  - exists self', items, fs. split; [exact Hrun|]. split; [exact Hitems|].
    split; [exact Hcreate|exact Hg].
Defined.

(** X8: the class generated for a struct class whose name was not cached
    has no forward reference left: every name that a field type of it refers
    to is in the cache when [update_forward_refs] runs, so every one is
    replaced by a class. *)
Theorem to_pydantic_model_class_resolves_all
    (fields : StructClass -> list MFieldInfo.t) (lib : Collaborators)
    (fuel : nat)
    (model_class : StructClass) (self self' : Plugin) (model : loc) :
  __name__ model_class ∉ dom (_struct_namespace_map self) ->
  to_pydantic_model_class fields lib fuel model_class self
  = Some (Ok model, self') ->
  exists generated,
    store self' !! model = Some generated
    /\ forall definition,
         definition ∈ model_fields generated ->
         unresolved definition.2.1 = [].
Proof.
  intros Hdom Hrun.
  destruct (to_pydantic_model_class_generated _ _ _ _ _ _ _ Hdom Hrun)
    as (fuel' & defs & nested & fs & self2 & -> & _ & _ & Hloop
        & -> & Hl & Hout & ->).
  apply nested_calls_steps in Hloop.
  destruct (plugin_steps_class _ _ Hloop (length (store self))
              {| model_name := __name__ model_class;
                 model_config := the_config; model_fields := fs |})
    as (model' & Hm' & _).
  { unfold registered. cbn [store]. by apply list_lookup_middle. }
  unfold resolution_outcome in Hout. rewrite Hm' in Hout.
  unfold update_forward_refs_outcome in Hout.
  eexists. split.
  - unfold resolved. cbn [store]. by rewrite list_lookup_alter_eq, Hm'.
  - cbn [update_forward_refs model_fields].
    apply (resolve_fields_complete (_struct_namespace_map self2)
             (model_fields model')).
    destruct (resolve_fields _ _) as [fs' [|]]; [done|discriminate].
Qed.

Lemma to_pydantic_model_class_resolves_all_witness :
  exists self' generated,
    to_pydantic_model_class example_fields python_libraries 4 Clinic __init__
    = Some (Ok 0, self')
    /\ store self' !! 0 = Some generated
    /\ forall definition,
         definition ∈ model_fields generated ->
         unresolved definition.2.1 = [].
Proof.
  evar (self' : Plugin).
  assert (to_pydantic_model_class example_fields python_libraries 4 Clinic
            __init__ = Some (Ok 0, self')) as Hrun
    by (subst self'; vm_compute; reflexivity).
  destruct (to_pydantic_model_class_resolves_all example_fields
              python_libraries 4 Clinic __init__ self' 0)
    as (generated & Hg & Hf).
  - cbn. by rewrite dom_empty_L.
  - exact Hrun.
  - exists self', generated. split; [exact Hrun|]. split; [exact Hg|exact Hf].
Defined.

(** X9: no sequence of operations removes, replaces or renames a class
    object. A class that is in the store stays at its address with its name,
    its configuration, its field names and its field metadata; only its field
    types may change, and only by resolution: resolved against the final
    cache, the old and the new class are the same. *)
Theorem class_objects_persist
    (fields : StructClass -> list MFieldInfo.t) (lib : Collaborators)
    (calls : list operation)
    (self self' : Plugin) (l : loc) (model : Model) :
  run_calls fields lib calls self = Some self' ->
  store self !! l = Some model ->
  exists model',
    store self' !! l = Some model'
    /\ model_name model' = model_name model
    /\ model_config model' = model_config model
    /\ map fst (model_fields model') = map fst (model_fields model)
    /\ map (fun d => d.2.2) (model_fields model')
       = map (fun d => d.2.2) (model_fields model)
    /\ update_forward_refs (_struct_namespace_map self') model'
       = update_forward_refs (_struct_namespace_map self') model.
Proof.
  intros Hsteps%run_calls_steps Hm.
  destruct (plugin_steps_class _ _ Hsteps l model Hm) as (model' & Hm' & E).
  specialize (E (_struct_namespace_map self') (reflexivity _)).
  destruct (update_forward_refs_skeleton _ _ _ E) as (? & ? & ? & ?).
  by exists model'.
Qed.

Lemma class_objects_persist_witness :
  exists self1 self2 model model',
    to_pydantic_model_class example_fields python_libraries 2 Node __init__
    = Some (Ok 0, self1)
    /\ run_calls example_fields python_libraries
         [call_to_pydantic_model_class 3 Owner;
          call_to_pydantic_model_class 1 Node] self1 = Some self2
    /\ store self1 !! 0 = Some model
    /\ store self2 !! 0 = Some model'
    /\ model_name model' = "Node"
    /\ map fst (model_fields model') = ["children"].
Proof.
  evar (self1 : Plugin). evar (self2 : Plugin). evar (model : Model).
  assert (to_pydantic_model_class example_fields python_libraries 2 Node
            __init__ = Some (Ok 0, self1)) as H1
    by (subst self1; vm_compute; reflexivity).
  assert (run_calls example_fields python_libraries
            [call_to_pydantic_model_class 3 Owner;
             call_to_pydantic_model_class 1 Node] self1 = Some self2) as H2
    by (subst self2; vm_compute; reflexivity).
  assert (store self1 !! 0 = Some model) as Hm
    by (subst model; vm_compute; reflexivity).
  destruct (class_objects_persist example_fields python_libraries _ self1
              self2 0 model H2 Hm)
    as (model' & Hm' & Hn & _ & Hf & _).
  exists self1, self2, model, model'.
  split; [exact H1|]. split; [exact H2|]. split; [exact Hm|].
  split; [exact Hm'|]. split; [by rewrite Hn|]. by rewrite Hf.
Defined.

(** ** The scan of the fields *)

Lemma scan_fields_returns lib self struct_name fs :
  (forall field nested,
     field ∈ fs -> is_complex_type (MFieldInfo.type field) = true ->
     exists nested' p,
       get_complex_type lib self (MFieldInfo.type field) struct_name nested
       = (nested', Ok p)) ->
  forall field_definitions nested_structs,
    exists scanned,
      scan_fields lib self struct_name fs field_definitions nested_structs
      = Ok scanned.
Proof.
  induction fs as [|field fs IH]; intros Hok field_definitions nested_structs;
    cbn [scan_fields]; [by eexists|].
  assert (forall defs ns,
            exists scanned,
              scan_fields lib self struct_name fs defs ns = Ok scanned)
    as Hrest.
  { apply IH. intros f n Hf. apply Hok. by right. }
  destruct (as_struct (MFieldInfo.type field)); [apply Hrest|].
  destruct (is_complex_type (MFieldInfo.type field)) eqn:Hc; [|apply Hrest].
  destruct (Hok field nested_structs) as (nested' & p & ->); [by left|done|].
  apply Hrest.
Qed.

(** X11: the loop over the fields of [to_pydantic_model_class]. When it
    goes to the end it leaves in [nested_structs], in the order of the fields
    and with repetitions, the struct classes the field types refer to that
    are neither named as the struct itself nor cached, and in
    [field_definitions] an item under the name of every field. When it
    raises, it raises what the rebuilder raised on a complex field type. It
    goes to the end when the rebuilder returns on every complex field
    type. *)
Theorem scan_fields_outcome (lib : Collaborators) (self : Plugin)
    (struct_name : string) (fs : list MFieldInfo.t) :
  (forall field_definitions nested_structs,
     scan_fields lib self struct_name fs [] []
     = Ok (field_definitions, nested_structs) ->
     nested_structs
     = filter (fun s => to_discover self struct_name s = true)
         (flat_map (fun field => discovered (MFieldInfo.type field)) fs)
     /\ (forall cls, cls ∈ nested_structs ->
           __name__ cls <> struct_name
           /\ (__name__ cls ∉ dom (_struct_namespace_map self))
           /\ exists field, field ∈ fs
                /\ cls ∈ discovered (MFieldInfo.type field))
     /\ (forall field, field ∈ fs ->
           MFieldInfo.name field ∈ map fst field_definitions)
     /\ (forall definition, definition ∈ field_definitions ->
           exists field, field ∈ fs
             /\ field_translated lib self struct_name field definition))
  /\ (forall e,
        scan_fields lib self struct_name fs [] [] = Raise e ->
        exists field nested nested',
          field ∈ fs
          /\ is_complex_type (MFieldInfo.type field) = true
          /\ get_complex_type lib self (MFieldInfo.type field) struct_name
               nested = (nested', Raise e))
  /\ ((forall field nested,
         field ∈ fs -> is_complex_type (MFieldInfo.type field) = true ->
         exists nested' p,
           get_complex_type lib self (MFieldInfo.type field) struct_name nested
           = (nested', Ok p)) ->
      exists scanned, scan_fields lib self struct_name fs [] [] = Ok scanned).
Proof.
  split_and!.
  - intros defs nested [-> (items & Hitems & ->)]%scan_fields_Ok.
    cbn [app]. split; [done|]. split_and!.
    + intros cls (Hin & Hne & Hout)%elem_of_to_discover. split; [done|].
      split; [done|].
      apply list_elem_of_In, in_flat_map in Hin as (f & Hf & Hc).
      exists f. split; by apply list_elem_of_In.
    + assert (forall (items' : list (string * (ptype * PFieldInfo))) defs name,
                name ∈ map fst items' \/ name ∈ map fst defs ->
                name ∈ map fst
                         (foldl (fun d item => dict_setitem d item.1 item.2)
                            defs items')) as Hkeys.
      { induction items' as [|[k v] items' IH]; intros defs name; cbn [foldl map].
        - by intros [?%elem_of_nil|?].
        - cbn [fst snd].
          intros [[->|Hin]%elem_of_cons|Hin]; apply IH; [right|by left|right].
          + apply list_elem_of_fmap. eexists (_, _).
            split; [reflexivity|apply dict_setitem_elem_of_same].
          + apply list_elem_of_fmap in Hin as (e & Hname & He).
            apply list_elem_of_fmap.
            destruct (decide (e.1 = k)) as [E|Hne].
            * eexists (_, _). split; [|apply dict_setitem_elem_of_same].
              cbn [fst]. congruence.
            * exists e. split; [done|]. by apply dict_setitem_elem_of_other. }
      intros field Hfield. apply Hkeys. left.
      rewrite (field_translated_names _ _ _ _ _ Hitems).
      by apply (list_elem_of_fmap_2 MFieldInfo.name).
    + intros definition [[]%elem_of_nil|Hd]%field_definitions_elem_of_inv.
      apply list_elem_of_lookup in Hd as [i Hi].
      destruct (Forall2_lookup_r _ _ _ _ _ Hitems Hi) as (field & Hf & Htr).
      exists field. split; [by eapply list_elem_of_lookup_2|done].
  - intros e. apply scan_fields_Raise.
  - intros Hok. by apply scan_fields_returns.
Qed.

Lemma scan_fields_outcome_witness :
  exists scanned,
    scan_fields python_libraries __init__ "Clinic" (example_fields Clinic)
      [] [] = Ok scanned.
Proof.
  destruct (scan_fields_outcome python_libraries __init__ "Clinic"
              (example_fields Clinic)) as (_ & _ & H).
  apply H. intros field nested Hfield Hc. exfalso.
  apply elem_of_cons in Hfield as [->|[->|[]%elem_of_nil]%elem_of_cons];
    discriminate.
Defined.
